(** * Pulsar stand-alone producer / consumer scripts

    A shallow embedding of [producer.py] and [consumer.py].

    Python text ([str]) is a list of Unicode code points, [bytes] a list
    of octets.  Every call that leaves the interpreter (the file system,
    [input], the wall clock, the broker client library) is answered by a
    scripted reply, and every observable effect is appended to a trace,
    so each function of the scripts is a total, executable Rocq function
    of the replies it receives.

    Conventions of the model:
    - writing to standard output succeeds, except where the consumer
      prints the payload of a received message: that text comes from
      outside and the output encoding may refuse it;
    - a keyboard interrupt is delivered while the process is blocked in an
      external call ([input], [send], [receive], [acknowledge], [sleep],
      [close]), never between two byte-code instructions. *)

From Stdlib Require Import Strings.Ascii Strings.String.
From Stdlib Require Import List Bool Arith NArith ZArith Lia.
Import ListNotations.

Set Implicit Arguments.

(** ** Text and bytes *)

Definition codepoint := N.
Definition str := list codepoint.
Definition bytes := list N.

(** A source-code literal, seen as Python text (ASCII literals only). *)
Definition lit (s : string) : str := map N_of_ascii (list_ascii_of_string s).

Arguments lit s%_string.

Definition str_eqb (a b : str) : bool :=
  if list_eq_dec N.eq_dec a b then true else false.

Definition between (lo hi c : N) : bool := (lo <=? c)%N && (c <=? hi)%N.

(** [str.isspace] for one code point: the interpreter's white-space table. *)
Definition isspace (c : codepoint) : bool :=
  between 0x09 0x0D c || between 0x1C 0x1F c || (c =? 0x20)%N
  || (c =? 0x85)%N || (c =? 0xA0)%N || (c =? 0x1680)%N
  || between 0x2000 0x200A c || (c =? 0x2028)%N || (c =? 0x2029)%N
  || (c =? 0x202F)%N || (c =? 0x205F)%N || (c =? 0x3000)%N.

Fixpoint lstrip (s : str) : str :=
  match s with
  | c :: s' => if isspace c then lstrip s' else s
  | [] => []
  end.

Definition rstrip (s : str) : str := rev (lstrip (rev s)).

(** [s.strip()]: the left index moves right over white space, then the
    right index moves left over white space without crossing the left. *)
Definition strip (s : str) : str := rstrip (lstrip s).

(** [in] on text: substring search. *)
Fixpoint starts_with (p s : str) : bool :=
  match p, s with
  | [], _ => true
  | _ :: _, [] => false
  | a :: p', b :: s' => (a =? b)%N && starts_with p' s'
  end.

Fixpoint contains (needle hay : str) : bool :=
  starts_with needle hay ||
  match hay with
  | [] => false
  | _ :: hay' => contains needle hay'
  end.

(** [s.replace(old, new)] for a one-character [old]. *)
Definition replace_char (old : codepoint) (new : str) (s : str) : str :=
  flat_map (fun c => if (c =? old)%N then new else [c]) s.

(** Decimal rendering of an [int], as [str(n)] and the f-string [{n}] give it. *)
Fixpoint digits_of_uint (d : Decimal.uint) : str :=
  match d with
  | Decimal.Nil => []
  | Decimal.D0 d => 48%N :: digits_of_uint d
  | Decimal.D1 d => 49%N :: digits_of_uint d
  | Decimal.D2 d => 50%N :: digits_of_uint d
  | Decimal.D3 d => 51%N :: digits_of_uint d
  | Decimal.D4 d => 52%N :: digits_of_uint d
  | Decimal.D5 d => 53%N :: digits_of_uint d
  | Decimal.D6 d => 54%N :: digits_of_uint d
  | Decimal.D7 d => 55%N :: digits_of_uint d
  | Decimal.D8 d => 56%N :: digits_of_uint d
  | Decimal.D9 d => 57%N :: digits_of_uint d
  end.

Definition str_of_nat (n : nat) : str := digits_of_uint (Nat.to_uint n).

(** ** UTF-8 *)

(** [s.encode('utf-8')] on one code point; [None] stands for the
    [UnicodeEncodeError] raised on a surrogate. *)
Definition utf8_encode_char (c : codepoint) : option bytes :=
  if (c <? 0x80)%N then Some [c]
  else if (c <? 0x800)%N then
    Some [N.lor 0xC0 (N.shiftr c 6); N.lor 0x80 (N.land c 0x3F)]
  else if (c <? 0x10000)%N then
    if between 0xD800 0xDFFF c then None
    else Some [N.lor 0xE0 (N.shiftr c 12);
               N.lor 0x80 (N.land (N.shiftr c 6) 0x3F);
               N.lor 0x80 (N.land c 0x3F)]
  else if (c <? 0x110000)%N then
    Some [N.lor 0xF0 (N.shiftr c 18);
          N.lor 0x80 (N.land (N.shiftr c 12) 0x3F);
          N.lor 0x80 (N.land (N.shiftr c 6) 0x3F);
          N.lor 0x80 (N.land c 0x3F)]
  else None.

Fixpoint utf8_encode (s : str) : option bytes :=
  match s with
  | [] => Some []
  | c :: s' =>
      match utf8_encode_char c, utf8_encode s' with
      | Some b, Some bs => Some (b ++ bs)
      | _, _ => None
      end
  end.

Definition is_cont (b : N) : bool := between 0x80 0xBF b.

Definition cont_bits (b : N) : N := N.land b 0x3F.

(** [b.decode('utf-8')] with the strict error handler; [None] stands for
    the [UnicodeDecodeError] raised on an ill-formed sequence. *)
Fixpoint utf8_decode (b : bytes) : option str :=
  match b with
  | [] => Some []
  | b0 :: r0 =>
      if (b0 <? 0x80)%N then option_map (cons b0) (utf8_decode r0)
      else if between 0xC2 0xDF b0 then
        match r0 with
        | b1 :: r1 =>
            if is_cont b1 then
              option_map
                (cons (N.lor (N.shiftl (N.land b0 0x1F) 6) (cont_bits b1)))
                (utf8_decode r1)
            else None
        | _ => None
        end
      else if between 0xE0 0xEF b0 then
        match r0 with
        | b1 :: b2 :: r2 =>
            if between (if (b0 =? 0xE0)%N then 0xA0 else 0x80)
                       (if (b0 =? 0xED)%N then 0x9F else 0xBF) b1
               && is_cont b2 then
              option_map
                (cons (N.lor (N.shiftl (N.land b0 0x0F) 12)
                        (N.lor (N.shiftl (cont_bits b1) 6) (cont_bits b2))))
                (utf8_decode r2)
            else None
        | _ => None
        end
      else if between 0xF0 0xF4 b0 then
        match r0 with
        | b1 :: b2 :: b3 :: r3 =>
            if between (if (b0 =? 0xF0)%N then 0x90 else 0x80)
                       (if (b0 =? 0xF4)%N then 0x8F else 0xBF) b1
               && is_cont b2 && is_cont b3 then
              option_map
                (cons (N.lor (N.shiftl (N.land b0 0x07) 18)
                        (N.lor (N.shiftl (cont_bits b1) 12)
                           (N.lor (N.shiftl (cont_bits b2) 6) (cont_bits b3)))))
                (utf8_decode r3)
            else None
        | _ => None
        end
      else None
  end.

(** ** Local time *)

(** The fields of [time.localtime()] that the scripts format. *)
Record struct_time := {
  tm_year : nat; tm_mon : nat; tm_mday : nat;
  tm_hour : nat; tm_min : nat; tm_sec : nat
}.

Definition zero_pad (width : nat) (digits : str) : str :=
  repeat 48%N (width - length digits) ++ digits.

(** [time.strftime('%Y-%m-%d %H:%M:%S')]: every field in decimal, the year
    on four digits at least, the others on two. *)
Definition strftime (t : struct_time) : str :=
  zero_pad 4 (str_of_nat (tm_year t)) ++ lit "-" ++
  zero_pad 2 (str_of_nat (tm_mon t)) ++ lit "-" ++
  zero_pad 2 (str_of_nat (tm_mday t)) ++ lit " " ++
  zero_pad 2 (str_of_nat (tm_hour t)) ++ lit ":" ++
  zero_pad 2 (str_of_nat (tm_min t)) ++ lit ":" ++
  zero_pad 2 (str_of_nat (tm_sec t)).

(** ** Exceptions, replies and traces *)

Inductive exn_class :=
| KeyboardInterrupt
| SystemExit (code : Z)
| EOFError
| FileNotFoundError
| OtherException.

(** An exception object: its class and [str(e)]. *)
Record exn := { exn_cls : exn_class; exn_text : str }.

(** [except Exception] catches every class but the two that derive from
    [BaseException] directly. *)
Definition is_Exception (e : exn) : bool :=
  match exn_cls e with
  | KeyboardInterrupt | SystemExit _ => false
  | EOFError | FileNotFoundError | OtherException => true
  end.

Definition is_KeyboardInterrupt (e : exn) : bool :=
  match exn_cls e with KeyboardInterrupt => true | _ => false end.

Definition is_EOFError (e : exn) : bool :=
  match exn_cls e with EOFError => true | _ => false end.

Definition is_FileNotFoundError (e : exn) : bool :=
  match exn_cls e with FileNotFoundError => true | _ => false end.

(** What an external call answers. *)
Inductive reply (A : Type) :=
| Returns (a : A)
| Raises (e : exn).

Arguments Raises {A} e.

(** An inbound record: [msg.data()] and [str(msg.message_id())]. *)
Record message := { msg_data : bytes; msg_id : str }.

Inductive handle := ProducerHandle | ConsumerHandle | ClientHandle.

(** Observable effects, each external call with the reply it got. *)
Inductive action :=
| Print (text : str)
| OpenRead (path : str) (r : reply str)
| Input (prompt : str) (r : reply str)
| NewClient (service_url token : str) (r : reply unit)
| CreateProducer (topic producer_name : str) (r : reply unit)
| Subscribe (topic subscription_name consumer_name : str) (r : reply unit)
| Send (payload : bytes) (r : reply str)
| Receive (timeout_millis : Z) (r : reply message)
| Acknowledge (m : message) (r : reply unit)
| Sleep (seconds : Z) (r : reply unit)
| Close (h : handle) (r : reply unit).

Definition trace := list action.

(** How a piece of code ends: it returns, it raises, or it is still
    blocked because the scripted replies ran out. *)
Inductive completion (A : Type) :=
| Done (a : A)
| Raise (e : exn)
| Pending.

Arguments Raise {A} e.
Arguments Pending {A}.

(** A run: the effects so far and how it ended. *)
Definition run (A : Type) : Type := trace * completion A.

Definition ret {A} (a : A) : run A := ([], Done a).

Definition bind {A B} (m : run A) (k : A -> run B) : run B :=
  match m with
  | (t, Done a) => let (t', c) := k a in (t ++ t', c)
  | (t, Raise e) => (t, Raise e)
  | (t, Pending) => (t, Pending)
  end.

Notation "x <- m ;; k" := (bind m (fun x => k))
  (at level 61, m at next level, right associativity).
Notation "m ;;; k" := (bind m (fun _ => k))
  (at level 61, right associativity).

(** [print(text)]: the text and the line end. *)
Definition print (text : str) : run unit := ([Print (text ++ [10%N])], Done tt).

Definition raise {A} (e : exn) : run A := ([], Raise e).

(** An external call: logged with its reply, which decides how it ends. *)
Definition call {A} (a : reply A -> action) (r : reply A) : run A :=
  ([a r], match r with Returns x => Done x | Raises e => Raise e end).

(** [sys.exit(code)]. *)
Definition sys_exit {A} (code : Z) : run A :=
  raise {| exn_cls := SystemExit code; exn_text := [] |}.

(** [try: m  except ...: handler e]; [handler] answers [None] for an
    exception no clause matches. *)
Definition try_except {A} (m : run A) (handler : exn -> option (run A)) : run A :=
  match m with
  | (t, Raise e) =>
      match handler e with
      | Some h => let (t', c) := h in (t ++ t', c)
      | None => (t, Raise e)
      end
  | other => other
  end.

(** [try: m  finally: cleanup]: [cleanup] runs however [m] ended, and an
    exception of [cleanup] replaces the pending one. *)
Definition try_finally {A} (m : run A) (cleanup : run unit) : run A :=
  match m with
  | (t, Pending) => (t, Pending)
  | (t, c) =>
      match cleanup with
      | (t', Done _) => (t ++ t', c)
      | (t', Raise e) => (t ++ t', Raise e)
      | (t', Pending) => (t ++ t', Pending)
      end
  end.

(** The exit status of the process once [main] has ended: 0 on return,
    the code given to [sys.exit], the status of the interrupt signal (on a
    POSIX host) for an uncaught interrupt, 1 for another uncaught
    exception. *)
Definition exit_status {A} (c : completion A) : option Z :=
  match c with
  | Done _ => Some 0%Z
  | Raise e =>
      match exn_cls e with
      | SystemExit code => Some code
      | KeyboardInterrupt => Some 130%Z
      | _ => Some 1%Z
      end
  | Pending => None
  end.

(** ** What the interpreter and the host supply *)

Record platform := {
  (** [os.sep] *)
  os_sep : str;
  (** The lower-case expansion of the non-ASCII code point found at an
      index of a text (the Unicode tables; the position matters for the
      final sigma only). *)
  lower_nonascii : str -> nat -> codepoint -> str;
  (** [str(e)] of the [UnicodeEncodeError] raised by encoding a text. *)
  encode_error_text : str -> str;
  (** [str(e)] of the [UnicodeDecodeError] raised by decoding bytes. *)
  decode_error_text : bytes -> str
}.

Section Lower.
Variable py : platform.

Definition lower_at (s : str) (i : nat) (c : codepoint) : str :=
  if between 65 90 c then [(c + 32)%N]
  else if (c <? 128)%N then [c]
  else lower_nonascii py s i c.

Fixpoint lower_from (s : str) (i : nat) (rest : str) : str :=
  match rest with
  | [] => []
  | c :: rest' => lower_at s i c ++ lower_from s (S i) rest'
  end.

(** [s.lower()] *)
Definition lower (s : str) : str := lower_from s 0 s.
End Lower.

(** ** Credential loader (the same function in both scripts) *)

Section Loader.
Variable py : platform.

Definition read_token_from_file (open_reply : str -> reply str)
    (token_file : str) : run str :=
  let windows_path := replace_char 47%N (os_sep py) token_file in
  try_except
    (content <- call (OpenRead windows_path) (open_reply windows_path) ;;
     ret (strip content))
    (fun e =>
       if is_FileNotFoundError e then
         Some (print (lit "Error: Token file " ++ windows_path ++ lit " not found!") ;;;
               print (lit "Please run setup-pulsar-jwt.bat first to generate the required tokens.") ;;;
               sys_exit 1)
       else if is_Exception e then
         Some (print (lit "Error reading token file: " ++ exn_text e) ;;;
               sys_exit 1)
       else None).
End Loader.

(** ** Shared vocabulary of the two interaction loops *)

Definition nl : codepoint := 10%N.

(** How one pass through a [while True] body ends when it does not raise. *)
Inductive signal := Continue | Break.

Definition service_url : str := lit "pulsar://localhost:6650".
Definition topic : str := lit "persistent://public/default/test-topic".

Definition is_empty (s : str) : bool :=
  match s with [] => true | _ :: _ => false end.

(** ** producer.py *)

Module Producer.

(** The replies one pass of the publish loop may consume: the operator's
    line, the local time, the broker client's answer to [send]. *)
Record iteration := {
  user_input : reply str;
  local_time : struct_time;
  send_reply : reply str
}.

(** Everything the producer process gets from outside. *)
Record world := {
  open_reply : str -> reply str;
  client_reply : reply unit;
  producer_reply : reply unit;
  iterations : list iteration;
  close_producer_reply : reply unit;
  close_client_reply : reply unit
}.

Section Script.
Variable py : platform.

Definition token_file : str := lit "tokens/client1-token.txt".

Definition create_producer (w : world) : run unit :=
  jwt_token <- read_token_from_file py (open_reply w) token_file ;;
  print (lit "Connecting to Pulsar broker with JWT authentication...") ;;;
  print (lit "Using token from: " ++ token_file) ;;;
  try_except
    (call (NewClient service_url jwt_token) (client_reply w) ;;;
     call (CreateProducer topic (lit "client1-producer")) (producer_reply w) ;;;
     print (lit "Successfully connected to Pulsar broker!") ;;;
     print (lit "Producer created for topic: persistent://public/default/test-topic"))
    (fun e =>
       if is_Exception e then
         Some (print (lit "Error connecting to Pulsar: " ++ exn_text e) ;;;
               print (nl :: lit "Troubleshooting tips:") ;;;
               print (lit "1. Ensure Pulsar cluster is running: docker-compose up -d") ;;;
               print (lit "2. Ensure JWT tokens are generated: run setup-pulsar-jwt.bat") ;;;
               print (lit "3. Ensure permissions are set up: run setup-pulsar-jwt.bat") ;;;
               print (lit "4. Check if broker is accessible on localhost:6650") ;;;
               sys_exit 1)
       else None).

Definition prompt : str := lit "Enter message: ".

Definition println (text : str) : action := Print (text ++ [nl]).

(** The [except] clauses of the inner [try], entered with the effects
    [t] of the body so far and the counter as the body left it. *)
Definition inner_except (t : trace) (message_count : nat) (e : exn)
    : trace * nat * completion signal :=
  if is_EOFError e then
    (t ++ [println (nl :: lit "Received EOF, exiting...")],
     message_count, Done Break)
  else if is_Exception e then
    (t ++ [println (lit "Error sending message: " ++ exn_text e)],
     message_count, Done Continue)
  else (t, message_count, Raise e).

Definition sent_line (msg_id : str) : str :=
  0x2713%N :: lit " Message sent successfully - ID: " ++ msg_id.

(** One pass through the body of [while True] (the inner [try]). *)
Definition iteration_body (message_count : nat) (it : iteration)
    : trace * nat * completion signal :=
  let t0 := [Input prompt (user_input it)] in
  match user_input it with
  | Raises e => inner_except t0 message_count e
  | Returns line =>
      let user_message := strip line in
      if str_eqb (lower py user_message) (lit "exit") then
        (t0 ++ [println (lit "Exiting producer...")], message_count, Done Break)
      else if is_empty user_message then
        (t0 ++ [println (lit "Empty message, please enter some text.")],
         message_count, Done Continue)
      else
        let timestamped_message :=
          user_message ++ lit " - " ++ strftime (local_time it) in
        match utf8_encode timestamped_message with
        | None =>
            inner_except t0 message_count
              {| exn_cls := OtherException;
                 exn_text := encode_error_text py timestamped_message |}
        | Some payload =>
            let t1 := t0 ++ [Send payload (send_reply it)] in
            match send_reply it with
            | Raises e => inner_except t1 message_count e
            | Returns msg_id =>
                (t1 ++ [println (sent_line msg_id); println []],
                 S message_count, Done Continue)
            end
        end
  end.

(** [while True:] over the scripted passes; [Pending] when they run
    out while the loop is still awaiting input. *)
Fixpoint while_true (message_count : nat) (its : list iteration)
    : trace * nat * completion unit :=
  match its with
  | [] => ([], message_count, Pending)
  | it :: rest =>
      match iteration_body message_count it with
      | (t, n, Done Continue) =>
          let '(t', n', c) := while_true n rest in (t ++ t', n', c)
      | (t, n, Done Break) => (t, n, Done tt)
      | (t, n, Raise e) => (t, n, Raise e)
      | (t, n, Pending) => (t, n, Pending)
      end
  end.

(** The outer [try ... except KeyboardInterrupt] around the loop. *)
Definition guarded_loop (its : list iteration) : trace * nat * completion unit :=
  match while_true 0 its with
  | (t, n, Raise e) =>
      if is_KeyboardInterrupt e then
        (t ++ [println (nl :: lit "Received Ctrl+C, exiting...")], n, Done tt)
      else (t, n, Raise e)
  | other => other
  end.

Definition total_line (message_count : nat) : str :=
  nl :: lit "Total messages sent: " ++ str_of_nat message_count.

Definition send_messages_interactive (its : list iteration) : run unit :=
  print (nl :: lit "Ready to send messages!") ;;;
  print (lit "Type your message and press Enter to send.") ;;;
  print (lit "Type 'exit' to quit or press Ctrl+C to stop.") ;;;
  print (repeat 45%N 50) ;;;
  let '(t, message_count, c) := guarded_loop its in
  (t, c) ;;;
  print (total_line message_count) ;;;
  print (lit "Producer session ended.").

(** The [finally] block of [main]. *)
Definition shutdown (w : world) : run unit :=
  print (nl :: lit "Closing producer and client...") ;;;
  call (Close ProducerHandle) (close_producer_reply w) ;;;
  call (Close ClientHandle) (close_client_reply w) ;;;
  print (lit "Producer closed successfully!").

(** The [try / except KeyboardInterrupt / finally] of [main] around a
    body that ended as [body]. *)
Definition main_try (body : run unit) (w : world) : run unit :=
  try_finally
    (try_except body
       (fun e =>
          if is_KeyboardInterrupt e then
            Some (print (nl :: lit "Producer interrupted by user"))
          else None))
    (shutdown w).

Definition main (w : world) : run unit :=
  print (repeat 61%N 50) ;;;
  print (lit "Pulsar Producer with JWT Authentication") ;;;
  print (lit "Client: client1 (Producer permissions)") ;;;
  print (repeat 61%N 50) ;;;
  create_producer w ;;;
  main_try (send_messages_interactive (iterations w)) w.

End Script.
End Producer.

(** ** consumer.py *)

Module Consumer.

(** The replies one pass of the subscribe loop may consume: the broker
    client's answer to [receive], what printing the payload line of the
    report answers (an output encoding that cannot render the text
    raises), the local time shown with a message, the answer to
    [acknowledge], [int(time.time())] as read on the time-out path, and
    the answer to [time.sleep(1)]. *)
Record poll := {
  receive_reply : reply message;
  report_reply : reply unit;
  local_time : struct_time;
  acknowledge_reply : reply unit;
  epoch_seconds : Z;
  sleep_reply : reply unit
}.

(** Everything the consumer process gets from outside. *)
Record world := {
  open_reply : str -> reply str;
  client_reply : reply unit;
  consumer_reply : reply unit;
  polls : list poll;
  close_consumer_reply : reply unit;
  close_client_reply : reply unit
}.

Section Script.
Variable py : platform.

Definition token_file : str := lit "tokens/client2-token.txt".

Definition create_consumer (w : world) : run unit :=
  jwt_token <- read_token_from_file py (open_reply w) token_file ;;
  print (lit "Connecting to Pulsar broker with JWT authentication...") ;;;
  print (lit "Using token from: " ++ token_file) ;;;
  try_except
    (call (NewClient service_url jwt_token) (client_reply w) ;;;
     call (Subscribe topic (lit "client2-subscription") (lit "client2-consumer"))
          (consumer_reply w) ;;;
     print (lit "Successfully connected to Pulsar broker!") ;;;
     print (lit "Consumer created for topic: persistent://public/default/test-topic") ;;;
     print (lit "Subscription: client2-subscription"))
    (fun e =>
       if is_Exception e then
         Some (print (lit "Error connecting to Pulsar: " ++ exn_text e) ;;;
               print (nl :: lit "Troubleshooting tips:") ;;;
               print (lit "1. Ensure Pulsar cluster is running: docker-compose up -d") ;;;
               print (lit "2. Ensure JWT tokens are generated: run setup-pulsar-jwt.bat") ;;;
               print (lit "3. Ensure permissions are set up: run setup-pulsar-jwt.bat") ;;;
               print (lit "4. Check if broker is accessible on localhost:6650") ;;;
               sys_exit 1)
       else None).

Definition println (text : str) : action := Print (text ++ [nl]).

(** The liveness marker: a dot printed without a line end and flushed. *)
Definition marker : action := Print (lit ".").

(** The test guarding the marker on a time-out. *)
Definition marker_due (message_count : nat) (p : poll) : bool :=
  (message_count =? 0) || (epoch_seconds p mod 30 =? 0)%Z.

(** The [except Exception as e] clause of the inner [try], entered with
    the effects [t] of the body so far and the counter as the body
    left it. *)
Definition inner_except (t : trace) (message_count : nat) (p : poll) (e : exn)
    : trace * nat * completion signal :=
  if is_Exception e then
    if contains (lit "Timeout") (exn_text e) then
      if marker_due message_count p then
        (t ++ [marker], message_count, Done Continue)
      else (t, message_count, Done Continue)
    else
      let t1 := t ++ [println (lit "Error receiving message: " ++ exn_text e);
                      Sleep 1 (sleep_reply p)] in
      match sleep_reply p with
      | Returns _ => (t1, message_count, Done Continue)
      | Raises e' => (t1, message_count, Raise e')
      end
  else (t, message_count, Raise e).

Definition report (message_count : nat) (m : message) (message_data : str)
    (now : struct_time) : trace :=
  [println (lit "Message " ++ str_of_nat message_count ++ lit " received:");
   println (lit "  ID: " ++ msg_id m);
   println (lit "  Data: " ++ message_data);
   println (lit "  Received at: " ++ strftime now);
   println (repeat 45%N 50)].

(** The lines of the report that precede the payload line. *)
Definition report_head (message_count : nat) (m : message) : trace :=
  [println (lit "Message " ++ str_of_nat message_count ++ lit " received:");
   println (lit "  ID: " ++ msg_id m)].

(** One pass through the body of [while True] (the inner [try]). *)
Definition poll_body (message_count : nat) (p : poll)
    : trace * nat * completion signal :=
  let t0 := [Receive 5000 (receive_reply p)] in
  match receive_reply p with
  | Raises e => inner_except t0 message_count p e
  | Returns msg =>
      let message_count := S message_count in
      match utf8_decode (msg_data msg) with
      | None =>
          inner_except t0 message_count p
            {| exn_cls := OtherException;
               exn_text := decode_error_text py (msg_data msg) |}
      | Some message_data =>
          match report_reply p with
          | Raises e =>
              inner_except (t0 ++ report_head message_count msg) message_count p e
          | Returns _ =>
              let t1 := t0 ++ report message_count msg message_data (local_time p)
                           ++ [Acknowledge msg (acknowledge_reply p)] in
              match acknowledge_reply p with
              | Raises e => inner_except t1 message_count p e
              | Returns _ => (t1, message_count, Done Continue)
              end
          end
      end
  end.

(** [while True:] over the scripted polls; [Pending] when they run out
    while the loop is still polling. *)
Fixpoint while_true (message_count : nat) (ps : list poll)
    : trace * nat * completion unit :=
  match ps with
  | [] => ([], message_count, Pending)
  | p :: rest =>
      match poll_body message_count p with
      | (t, n, Done Continue) =>
          let '(t', n', c) := while_true n rest in (t ++ t', n', c)
      | (t, n, Done Break) => (t, n, Done tt)
      | (t, n, Raise e) => (t, n, Raise e)
      | (t, n, Pending) => (t, n, Pending)
      end
  end.

(** The outer [try ... except KeyboardInterrupt] around the loop. *)
Definition guarded_loop (ps : list poll) : trace * nat * completion unit :=
  match while_true 0 ps with
  | (t, n, Raise e) =>
      if is_KeyboardInterrupt e then
        (t ++ [println (nl :: lit "Consumer interrupted by user")], n, Done tt)
      else (t, n, Raise e)
  | other => other
  end.

Definition total_line (message_count : nat) : str :=
  nl :: lit "Total messages consumed: " ++ str_of_nat message_count.

Definition consume_messages_continuous (ps : list poll) : run unit :=
  print (nl :: lit "Listening for messages continuously...") ;;;
  print (lit "Press Ctrl+C to stop the consumer") ;;;
  print (repeat 45%N 50) ;;;
  let '(t, message_count, c) := guarded_loop ps in
  (t, c) ;;;
  print (total_line message_count) ;;;
  print (lit "Consumer session ended.").

(** The [finally] block of [main]. *)
Definition shutdown (w : world) : run unit :=
  print (nl :: lit "Closing consumer and client...") ;;;
  call (Close ConsumerHandle) (close_consumer_reply w) ;;;
  call (Close ClientHandle) (close_client_reply w) ;;;
  print (lit "Consumer closed successfully!").

(** The [try / except KeyboardInterrupt / finally] of [main] around a
    body that ended as [body]. *)
Definition main_try (body : run unit) (w : world) : run unit :=
  try_finally
    (try_except body
       (fun e =>
          if is_KeyboardInterrupt e then
            Some (print (nl :: lit "Consumer interrupted by user"))
          else None))
    (shutdown w).

Definition main (w : world) : run unit :=
  print (repeat 61%N 50) ;;;
  print (lit "Pulsar Consumer with JWT Authentication") ;;;
  print (lit "Client: client2 (Consumer permissions)") ;;;
  print (repeat 61%N 50) ;;;
  create_consumer w ;;;
  main_try (consume_messages_continuous (polls w)) w.

End Script.
End Consumer.

(** ** Vocabulary of the statements *)

Definition all_space (s : str) : Prop := Forall (fun c => isspace c = true) s.

(** No white space at the first nor at the last position. *)
Definition tight (s : str) : Prop :=
  lstrip s = s /\ rstrip s = s.

(** [r] is [content] without its surrounding white space. *)
Definition trimmed_of (content r : str) : Prop :=
  exists pre post,
    content = pre ++ r ++ post /\ all_space pre /\ all_space post /\ tight r.

(** ASCII case folding, for comparing with a keyword whatever the case. *)
Definition ascii_fold (c : codepoint) : codepoint :=
  if between 65 90 c then (c + 32)%N else c.

Definition equals_ignoring_case (s keyword : str) : Prop :=
  map ascii_fold s = map ascii_fold keyword.

(** Unicode scalar values: what well-formed text is made of. *)
Definition is_scalar (c : codepoint) : bool :=
  (c <? 0x110000)%N && negb (between 0xD800 0xDFFF c).

(** The shape "YYYY-MM-DD HH:MM:SS". *)
Definition is_digit (c : codepoint) : bool := between 48 57 c.

Definition timestamp_format (s : str) : bool :=
  match s with
  | [y1; y2; y3; y4; a; m1; m2; b; d1; d2; sp; h1; h2; c1; n1; n2; c2; s1; s2] =>
      forallb is_digit [y1; y2; y3; y4; m1; m2; d1; d2; h1; h2; n1; n2; s1; s2]
      && str_eqb [a; b; sp; c1; c2] (lit "-- ::")
  | _ => false
  end.

(** A calendar time: a four-digit year and the other fields in range. *)
Definition valid_local_time (t : struct_time) : bool :=
  (1000 <=? tm_year t) && (tm_year t <? 100 * 100)
  && (1 <=? tm_mon t) && (tm_mon t <=? 12)
  && (1 <=? tm_mday t) && (tm_mday t <=? 31)
  && (tm_hour t <=? 23) && (tm_min t <=? 59) && (tm_sec t <=? 61).

(** Projections of a trace. *)
Definition sends (t : trace) : list bytes :=
  flat_map (fun a => match a with Send payload _ => [payload] | _ => [] end) t.

Definition successful_sends (t : trace) : nat :=
  List.length (filter (fun a => match a with Send _ (Returns _) => true | _ => false end) t).

Definition acks (t : trace) : list message :=
  flat_map (fun a => match a with Acknowledge m _ => [m] | _ => [] end) t.

Definition receives (t : trace) : nat :=
  List.length (filter (fun a => match a with Receive _ _ => true | _ => false end) t).

Definition closes (t : trace) : list handle :=
  flat_map (fun a => match a with Close h _ => [h] | _ => [] end) t.

Definition opens (t : trace) : nat :=
  List.length (filter (fun a => match a with OpenRead _ _ => true | _ => false end) t).

Definition markers (t : trace) : nat :=
  List.length (filter (fun a => match a with
                                 | Print text => str_eqb text (lit ".")
                                 | _ => false
                                 end) t).

(** The part of a trace that precedes its first [receive] call. *)
Fixpoint until_receive (t : trace) : trace :=
  match t with
  | [] => []
  | Receive _ _ :: _ => []
  | a :: t' => a :: until_receive t'
  end.

(** The session release that follows the channel release: attempted only
    when the channel release returned. *)
Definition then_session (channel_close : reply unit) : list handle :=
  match channel_close with
  | Returns _ => [ClientHandle]
  | Raises _ => []
  end.

(** The receive raised an exception of class [Exception]: a time-out of
    the broker client is one, whatever its text says. *)
Definition receive_failed (r : reply message) : bool :=
  match r with
  | Raises e => is_Exception e
  | Returns _ => false
  end.

(** The receive raised an exception that passes the consumer's test for
    a time-out: its text contains "Timeout", in that letter case.  The
    time-out the broker client raises reads "Pulsar error: TimeOut" and
    does not pass it. *)
Definition passes_timeout_test (r : reply message) : bool :=
  match r with
  | Raises e => is_Exception e && contains (lit "Timeout") (exn_text e)
  | Returns _ => false
  end.

(** ** Sample replies, used to run the scripts on concrete inputs *)

(** A POSIX host whose case tables leave non-ASCII text alone. *)
Definition posix : platform := {|
  os_sep := lit "/";
  lower_nonascii := fun _ _ c => [c];
  encode_error_text := fun _ => lit "'utf-8' codec can't encode character: surrogates not allowed";
  decode_error_text := fun _ => lit "'utf-8' codec can't decode byte: invalid start byte"
|}.

Definition new_year_10am : struct_time :=
  {| tm_year := 2024; tm_mon := 1; tm_mday := 1;
     tm_hour := 10; tm_min := 0; tm_sec := 0 |}.

Definition interrupt : exn := {| exn_cls := KeyboardInterrupt; exn_text := [] |}.

Definition file_missing : exn :=
  {| exn_cls := FileNotFoundError;
     exn_text := lit "[Errno 2] No such file or directory" |}.

(** The time-out the broker client raises from [receive]. *)
Definition broker_timeout : exn :=
  {| exn_cls := OtherException; exn_text := lit "Pulsar error: TimeOut" |}.

(** What [open] raises on a POSIX host when a component of the path is
    not a directory ([NotADirectoryError], not a [FileNotFoundError]). *)
Definition not_a_directory : exn :=
  {| exn_cls := OtherException;
     exn_text := lit "[Errno 20] Not a directory: 'tokens/client1-token.txt'" |}.

Definition broker_failure : exn :=
  {| exn_cls := OtherException; exn_text := lit "Pulsar error: ConnectError" |}.

Definition typed (line : string) (r : reply str) : Producer.iteration :=
  {| Producer.user_input := Returns (lit line);
     Producer.local_time := new_year_10am;
     Producer.send_reply := r |}.

Definition polled (r : reply message) (epoch : Z) : Consumer.poll :=
  {| Consumer.receive_reply := r;
     Consumer.report_reply := Returns tt;
     Consumer.local_time := new_year_10am;
     Consumer.acknowledge_reply := Returns tt;
     Consumer.epoch_seconds := epoch;
     Consumer.sleep_reply := Returns tt |}.

Definition producer_world (its : list Producer.iteration)
    (close_producer : reply unit) : Producer.world :=
  {| Producer.open_reply := fun _ => Returns (lit "eyJhbGciOi" ++ [nl]);
     Producer.client_reply := Returns tt;
     Producer.producer_reply := Returns tt;
     Producer.iterations := its;
     Producer.close_producer_reply := close_producer;
     Producer.close_client_reply := Returns tt |}.

Definition consumer_world (ps : list Consumer.poll)
    (close_consumer : reply unit) : Consumer.world :=
  {| Consumer.open_reply := fun _ => Returns (lit "eyJhbGciOi" ++ [nl]);
     Consumer.client_reply := Returns tt;
     Consumer.consumer_reply := Returns tt;
     Consumer.polls := ps;
     Consumer.close_consumer_reply := close_consumer;
     Consumer.close_client_reply := Returns tt |}.

(** Further projections of a trace. *)
Definition inputs (t : trace) : nat :=
  List.length (filter (fun a => match a with Input _ _ => true | _ => false end) t).

Definition received (t : trace) : list message :=
  flat_map (fun a => match a with Receive _ (Returns m) => [m] | _ => [] end) t.

Definition sleeps (t : trace) : list Z :=
  flat_map (fun a => match a with Sleep seconds _ => [seconds] | _ => [] end) t.

Definition printed (t : trace) : list str :=
  flat_map (fun a => match a with Print text => [text] | _ => [] end) t.

Definition opened (t : trace) : list str :=
  flat_map (fun a => match a with OpenRead path _ => [path] | _ => [] end) t.

Definition tokens (t : trace) : list str :=
  flat_map (fun a => match a with NewClient _ token _ => [token] | _ => [] end) t.

(** Calls that belong to the interaction loop or to the shutdown. *)
Definition session_calls (t : trace) : nat :=
  List.length (filter (fun a => match a with
                                 | Input _ _ | Send _ _ | Receive _ _
                                 | Acknowledge _ _ | Sleep _ _ | Close _ _ => true
                                 | _ => false
                                 end) t).

(** What [send_messages_interactive] prints before its loop. *)
Definition producer_greeting : trace :=
  [Producer.println (nl :: lit "Ready to send messages!");
   Producer.println (lit "Type your message and press Enter to send.");
   Producer.println (lit "Type 'exit' to quit or press Ctrl+C to stop.");
   Producer.println (repeat 45%N 50)].

(** What it prints after the loop. *)
Definition producer_farewell (message_count : nat) : trace :=
  [Producer.println (Producer.total_line message_count);
   Producer.println (lit "Producer session ended.")].

(** What [consume_messages_continuous] prints before its loop. *)
Definition consumer_greeting : trace :=
  [Consumer.println (nl :: lit "Listening for messages continuously...");
   Consumer.println (lit "Press Ctrl+C to stop the consumer");
   Consumer.println (repeat 45%N 50)].

(** What it prints after the loop. *)
Definition consumer_farewell (message_count : nat) : trace :=
  [Consumer.println (Consumer.total_line message_count);
   Consumer.println (lit "Consumer session ended.")].

(** A receive that failed with an error the consumer does not take for a
    time-out. *)
Definition is_receive_error (r : reply message) : bool :=
  match r with
  | Raises e => is_Exception e && negb (contains (lit "Timeout") (exn_text e))
  | Returns _ => false
  end.

(** The first failure of the two connection calls, if any. *)
Definition connection_failure (client channel : reply unit) : option exn :=
  match client, channel with
  | Raises e, _ => Some e
  | Returns _, Raises e => Some e
  | Returns _, Returns _ => None
  end.

(** The banner [main] prints first. *)
Definition producer_banner : trace :=
  [Producer.println (repeat 61%N 50);
   Producer.println (lit "Pulsar Producer with JWT Authentication");
   Producer.println (lit "Client: client1 (Producer permissions)");
   Producer.println (repeat 61%N 50)].

Definition consumer_banner : trace :=
  [Consumer.println (repeat 61%N 50);
   Consumer.println (lit "Pulsar Consumer with JWT Authentication");
   Consumer.println (lit "Client: client2 (Consumer permissions)");
   Consumer.println (repeat 61%N 50)].

(** ** Case analysis on the replies *)

Ltac producer_except :=
  unfold Producer.inner_except;
  repeat match goal with
         | |- context [if is_EOFError ?e then _ else _] => destruct (is_EOFError e) eqn:?
         | |- context [if is_Exception ?e then _ else _] => destruct (is_Exception e) eqn:?
         end.

Ltac consumer_except :=
  unfold Consumer.inner_except;
  repeat match goal with
         | |- context [if is_Exception ?e then _ else _] => destruct (is_Exception e) eqn:?
         | |- context [if contains ?a ?b then _ else _] => destruct (contains a b) eqn:?
         | |- context [if Consumer.marker_due ?n ?p then _ else _] =>
             destruct (Consumer.marker_due n p) eqn:?
         | |- context [match Consumer.sleep_reply ?p with _ => _ end] =>
             destruct (Consumer.sleep_reply p) eqn:?
         end.

Ltac split_replies :=
  repeat match goal with
         | |- context [match ?r with Returns _ => _ | Raises _ => _ end] =>
             destruct r eqn:?; cbn beta iota
         | |- context [if ?b then _ else _] => destruct b eqn:?; cbn beta iota
         end.

(** * Properties *)

(** ** White-space trimming *)

Lemma lstrip_split (s : str) :
  exists pre, s = pre ++ lstrip s /\ all_space pre.
Proof.
  induction s as [|c s IH]; simpl.
  - exists []. split; [reflexivity | constructor].
  - destruct (isspace c) eqn:Hc.
    + destruct IH as (pre & Heq & Hpre).
      exists (c :: pre). split.
      * simpl. now rewrite <- Heq.
      * now constructor.
    + exists []. split; [reflexivity | constructor].
Qed.

Lemma lstrip_idem (s : str) : lstrip (lstrip s) = lstrip s.
Proof.
  induction s as [|c s IH]; simpl; [reflexivity|].
  destruct (isspace c) eqn:Hc; [exact IH|].
  simpl. now rewrite Hc.
Qed.

(** [lstrip] on a text extended by one character at the right. *)
Lemma lstrip_snoc (u : str) (a : codepoint) :
  lstrip (u ++ [a]) =
  match lstrip u with
  | [] => if isspace a then [] else [a]
  | _ :: _ => lstrip u ++ [a]
  end.
Proof.
  induction u as [|c u IH]; simpl.
  - destruct (isspace a); reflexivity.
  - destruct (isspace c) eqn:Hc; [exact IH | reflexivity].
Qed.

(** The right index of [strip], one character at a time. *)
Lemma rstrip_cons (a : codepoint) (t : str) :
  rstrip (a :: t) =
  match rstrip t with
  | [] => if isspace a then [] else [a]
  | _ :: _ => a :: rstrip t
  end.
Proof.
  unfold rstrip. simpl rev. rewrite lstrip_snoc.
  destruct (lstrip (rev t)) as [|x l] eqn:Hl; simpl.
  - destruct (isspace a); reflexivity.
  - rewrite rev_app_distr. simpl.
    destruct (rev l ++ [x]) eqn:Hr; [|reflexivity].
    destruct (rev l); discriminate.
Qed.

Lemma rstrip_split (s : str) :
  exists post, s = rstrip s ++ post /\ all_space post.
Proof.
  unfold rstrip.
  destruct (lstrip_split (rev s)) as (pre & Heq & Hpre).
  exists (rev pre). split.
  - rewrite <- rev_app_distr, <- Heq. now rewrite rev_involutive.
  - unfold all_space in *. rewrite Forall_forall in *.
    intros x Hx. apply Hpre. now apply in_rev.
Qed.

Lemma rstrip_idem (s : str) : rstrip (rstrip s) = rstrip s.
Proof.
  unfold rstrip. now rewrite rev_involutive, lstrip_idem.
Qed.

(** Trimming the left end of a right-trimmed text leaves the right end
    trimmed, and conversely: the two ends can be trimmed in any order. *)
Lemma strip_commutes (s : str) : rstrip (lstrip s) = lstrip (rstrip s).
Proof.
  induction s as [|a t IH]; [reflexivity|].
  rewrite rstrip_cons. simpl lstrip.
  destruct (isspace a) eqn:Ha.
  - rewrite IH. destruct (rstrip t) as [|x l]; [reflexivity|].
    simpl. now rewrite Ha.
  - rewrite rstrip_cons.
    destruct (rstrip t); simpl; now rewrite Ha.
Qed.

Lemma strip_tight (s : str) : tight (strip s).
Proof.
  split; unfold strip.
  - rewrite strip_commutes. apply lstrip_idem.
  - apply rstrip_idem.
Qed.

Lemma strip_trimmed_of (s : str) : trimmed_of s (strip s).
Proof.
  destruct (lstrip_split s) as (pre & Hs & Hpre).
  destruct (rstrip_split (lstrip s)) as (post & Hl & Hpost).
  exists pre, post. repeat split; try assumption.
  - unfold strip. now rewrite <- Hl.
  - apply strip_tight.
  - apply strip_tight.
Qed.

Lemma lstrip_app_space (pre x : str) :
  all_space pre -> lstrip (pre ++ x) = lstrip x.
Proof.
  induction 1 as [|c pre Hc _ IH]; simpl; [reflexivity|].
  now rewrite Hc.
Qed.

Lemma lstrip_all_space (s : str) : all_space s -> lstrip s = [].
Proof.
  intros H. rewrite <- (app_nil_r s). now rewrite lstrip_app_space.
Qed.

Lemma lstrip_length (s : str) : List.length (lstrip s) <= List.length s.
Proof.
  induction s as [|c s IH]; simpl; [lia|].
  destruct (isspace c); simpl; lia.
Qed.

Lemma lstrip_fixed (s : str) (x : str) : lstrip s = s -> lstrip (s ++ x) = s ++ x \/ s = [].
Proof.
  destruct s as [|c s]; [now right|]. left.
  simpl in *. destruct (isspace c); [|reflexivity].
  pose proof (lstrip_length s) as Hlen. rewrite H in Hlen. simpl in Hlen. lia.
Qed.

Lemma all_space_rev (s : str) : all_space s -> all_space (rev s).
Proof.
  unfold all_space. rewrite !Forall_forall. intros H x Hx.
  apply H. now apply in_rev.
Qed.

(** Surrounding white space determines the trimmed text. *)
Lemma trimmed_of_unique (content r : str) :
  trimmed_of content r -> r = strip content.
Proof.
  intros (pre & post & -> & Hpre & Hpost & Hl & Hr).
  unfold strip. rewrite lstrip_app_space by assumption.
  destruct (@lstrip_fixed r post Hl) as [-> | ->].
  - unfold rstrip. rewrite rev_app_distr.
    rewrite lstrip_app_space by now apply all_space_rev.
    symmetry. exact Hr.
  - simpl. rewrite (@lstrip_all_space post Hpost). reflexivity.
Qed.

(** ** Credential loader *)

Lemma read_token_returns
    (py : platform) (open_reply : str -> reply str) (token_file content : str) :
  open_reply (replace_char 47%N (os_sep py) token_file) = Returns content ->
  read_token_from_file py open_reply token_file
  = ([OpenRead (replace_char 47%N (os_sep py) token_file) (Returns content)],
     Done (strip content)).
Proof.
  intros H. unfold read_token_from_file, call.
  rewrite H. reflexivity.
Qed.

Lemma read_token_missing
    (py : platform) (open_reply : str -> reply str) (token_file : str) (e : exn) :
  open_reply (replace_char 47%N (os_sep py) token_file) = Raises e ->
  is_FileNotFoundError e = true ->
  read_token_from_file py open_reply token_file
  = ([OpenRead (replace_char 47%N (os_sep py) token_file) (Raises e);
      Print (lit "Error: Token file " ++ replace_char 47%N (os_sep py) token_file
             ++ lit " not found!" ++ [nl]);
      Print (lit "Please run setup-pulsar-jwt.bat first to generate the required tokens."
             ++ [nl])],
     Raise {| exn_cls := SystemExit 1; exn_text := [] |}).
Proof.
  intros H Hfnf. unfold read_token_from_file, call.
  rewrite H. simpl. rewrite Hfnf. simpl.
  now rewrite <- !app_assoc.
Qed.

(** C5: for every token file that exists and is readable, the credential
    loader returns exactly the file's text with the surrounding white
    space trimmed (the one text that is the content minus white space at
    both ends); a file holding "abc123" and a line end yields "abc123". *)
Theorem loader_returns_trimmed_content
    (py : platform) (open_reply : str -> reply str) (token_file content : str) :
  open_reply (replace_char 47%N (os_sep py) token_file) = Returns content ->
  snd (read_token_from_file py open_reply token_file) = Done (strip content)
  /\ trimmed_of content (strip content)
  /\ (forall r, trimmed_of content r -> r = strip content)
  /\ strip (lit "abc123" ++ [nl]) = lit "abc123".
Proof.
  intros H. rewrite (@read_token_returns py open_reply token_file content H).
  repeat split.
  - apply strip_trimmed_of.
  - apply trimmed_of_unique.
Qed.

Lemma loader_returns_trimmed_content_witness :
  snd (read_token_from_file posix (fun _ => Returns (lit "abc123" ++ [nl]))
         Producer.token_file)
  = Done (lit "abc123").
Proof.
  exact (proj1 (@loader_returns_trimmed_content posix
                  (fun _ => Returns (lit "abc123" ++ [nl]))
                  Producer.token_file (lit "abc123" ++ [nl]) eq_refl)).
Defined.

(** C6, as the code has it: the returned credential is the file content
    with the trailing white space trimmed and then the leading white space
    trimmed as well; it is the trailing-trimmed content exactly when that
    content does not begin with white space. *)
Theorem loader_trims_both_ends
    (py : platform) (open_reply : str -> reply str) (token_file content : str) :
  open_reply (replace_char 47%N (os_sep py) token_file) = Returns content ->
  snd (read_token_from_file py open_reply token_file)
  = Done (lstrip (rstrip content))
  /\ (lstrip (rstrip content) = rstrip content
      <-> forall c rest, rstrip content = c :: rest -> isspace c = false).
Proof.
  intros H. rewrite (@read_token_returns py open_reply token_file content H).
  split.
  - simpl. unfold strip. now rewrite strip_commutes.
  - destruct (rstrip content) as [|c rest]; simpl.
    + split; [discriminate | reflexivity].
    + destruct (isspace c) eqn:Hc.
      * split.
        -- intros Heq. pose proof (lstrip_length rest) as Hlen.
           rewrite Heq in Hlen. simpl in Hlen. lia.
        -- intros Hno. specialize (Hno c rest eq_refl). congruence.
      * split; [|reflexivity].
        intros _ c' rest' Heq. now inversion Heq; subst.
Qed.

Lemma loader_trims_both_ends_witness :
  snd (read_token_from_file posix (fun _ => Returns (lit " abc" ++ [nl]))
         Producer.token_file)
  = Done (lit "abc").
Proof.
  exact (proj1 (@loader_trims_both_ends posix
                  (fun _ => Returns (lit " abc" ++ [nl]))
                  Producer.token_file (lit " abc" ++ [nl]) eq_refl)).
Defined.

(** C6 as written fails: on a file holding " abc" and a line end the
    loader returns "abc", while trimming the trailing white space only
    gives " abc". *)
Lemma loader_drops_leading_space :
  let content := lit " abc" ++ [nl] in
  snd (read_token_from_file posix (fun _ => Returns content) Producer.token_file)
  = Done (lit "abc")
  /\ rstrip content = lit " abc"
  /\ snd (read_token_from_file posix (fun _ => Returns content) Producer.token_file)
     <> Done (rstrip content).
Proof.
  repeat split. discriminate.
Qed.

(** C9, as the code has it: when opening the token file raises
    [FileNotFoundError] (there is no file at the path), the loader opens
    it once, prints the missing-file line and the guidance to run the
    provisioning step, and only then exits with status 1; the exit ends
    either process with that status before any connection is
    attempted. *)
Theorem loader_missing_file_exits
    (py : platform) (open_reply : str -> reply str) (token_file : str) (e : exn) :
  open_reply (replace_char 47%N (os_sep py) token_file) = Raises e ->
  is_FileNotFoundError e = true ->
  let path := replace_char 47%N (os_sep py) token_file in
  let guidance :=
    lit "Please run setup-pulsar-jwt.bat first to generate the required tokens." in
  let r := read_token_from_file py open_reply token_file in
  fst r = [OpenRead path (Raises e);
           Print (lit "Error: Token file " ++ path ++ lit " not found!" ++ [nl]);
           Print (guidance ++ [nl])]
  /\ exit_status (snd r) = Some 1%Z
  /\ opens (fst r) = 1
  /\ (forall w, Producer.open_reply w = open_reply ->
                token_file = Producer.token_file ->
                exit_status (snd (Producer.main py w)) = Some 1%Z
                /\ opens (fst (Producer.main py w)) = 1
                /\ last (fst (Producer.main py w)) (Print []) = Print (guidance ++ [nl]))
  /\ (forall w, Consumer.open_reply w = open_reply ->
                token_file = Consumer.token_file ->
                exit_status (snd (Consumer.main py w)) = Some 1%Z
                /\ opens (fst (Consumer.main py w)) = 1
                /\ last (fst (Consumer.main py w)) (Print []) = Print (guidance ++ [nl])).
Proof.
  intros H Hfnf path guidance r.
  pose proof (@read_token_missing py open_reply token_file e H Hfnf) as Hr.
  fold path in Hr. fold r in Hr.
  split; [now rewrite Hr|]. split; [now rewrite Hr|]. split; [now rewrite Hr|].
  split; intros w Hw Htf.
  - unfold Producer.main, Producer.create_producer.
    rewrite Hw, <- Htf. fold r. rewrite Hr. simpl. repeat split.
  - unfold Consumer.main, Consumer.create_consumer.
    rewrite Hw, <- Htf. fold r. rewrite Hr. simpl. repeat split.
Qed.

Lemma loader_missing_file_exits_witness :
  exit_status (snd (read_token_from_file posix (fun _ => Raises file_missing)
                      Consumer.token_file)) = Some 1%Z.
Proof.
  exact (proj1 (proj2 (@loader_missing_file_exits posix (fun _ => Raises file_missing)
                         Consumer.token_file file_missing eq_refl eq_refl))).
Defined.

(** C9 as written fails: on a POSIX host a path one of whose components
    is a regular file does not resolve to a file, yet [open] raises
    [NotADirectoryError], which is not a [FileNotFoundError]; the loader
    then prints the read-error line and exits with status 1 without the
    guidance. *)
Lemma unresolved_path_without_guidance :
  let r := read_token_from_file posix (fun _ => Raises not_a_directory)
             Producer.token_file in
  is_FileNotFoundError not_a_directory = false
  /\ fst r
     = [OpenRead Producer.token_file (Raises not_a_directory);
        Print (lit "Error reading token file: " ++ exn_text not_a_directory ++ [nl])]
  /\ exit_status (snd r) = Some 1%Z
  /\ ~ In (lit "Please run setup-pulsar-jwt.bat first to generate the required tokens."
           ++ [nl])
          (printed (fst r)).
Proof.
  repeat split. intros [H|[]]. discriminate.
Qed.

(** ** Text helpers *)

Lemma str_eqb_eq (a b : str) : str_eqb a b = true <-> a = b.
Proof.
  unfold str_eqb. destruct (list_eq_dec N.eq_dec a b); split; congruence.
Qed.

Lemma str_eqb_neq (a b : str) : str_eqb a b = false <-> a <> b.
Proof.
  unfold str_eqb. destruct (list_eq_dec N.eq_dec a b); split; congruence.
Qed.

Lemma lower_at_ascii (py : platform) (s : str) (i : nat) (c : codepoint) :
  (ascii_fold c <? 128)%N = true -> lower_at py s i c = [ascii_fold c].
Proof.
  unfold lower_at, ascii_fold.
  destruct (between 65 90 c); [reflexivity|].
  now intros ->.
Qed.

Lemma lower_from_ascii (py : platform) (s rest : str) :
  Forall (fun c => (ascii_fold c <? 128)%N = true) rest ->
  forall i, lower_from py s i rest = map ascii_fold rest.
Proof.
  induction 1 as [|c rest Hc _ IH]; intros i; simpl; [reflexivity|].
  now rewrite (lower_at_ascii py s i c Hc), IH.
Qed.

(** Lower-casing a text that matches an ASCII keyword whatever the case
    gives the folded keyword. *)
Lemma lower_of_caseless_match (py : platform) (s keyword : str) :
  Forall (fun c => (ascii_fold c <? 128)%N = true) keyword ->
  equals_ignoring_case s keyword ->
  lower py s = map ascii_fold keyword.
Proof.
  intros Hk Heq. unfold lower. rewrite <- Heq.
  apply lower_from_ascii.
  assert (Hm : Forall (fun x => (x <? 128)%N = true) (map ascii_fold s)).
  { rewrite Heq. apply Forall_map. exact Hk. }
  apply Forall_map in Hm. exact Hm.
Qed.

Lemma utf8_encode_char_scalar (c : codepoint) :
  is_scalar c = true -> exists b, utf8_encode_char c = Some b.
Proof.
  unfold is_scalar, utf8_encode_char. intros H.
  apply andb_prop in H. destruct H as [Hmax Hsur].
  apply negb_true_iff in Hsur. rewrite Hsur, Hmax.
  destruct (c <? 0x80)%N; [eauto|].
  destruct (c <? 0x800)%N; [eauto|].
  destruct (c <? 0x10000)%N; eauto.
Qed.

(** Encoding succeeds on text made of scalar values. *)
Lemma utf8_encode_scalar (s : str) :
  forallb is_scalar s = true -> exists b, utf8_encode s = Some b.
Proof.
  induction s as [|c s IH]; simpl; [eauto|].
  intros H. apply andb_prop in H. destruct H as [Hc Hs].
  destruct (utf8_encode_char_scalar c Hc) as (b & ->).
  destruct (IH Hs) as (bs & ->). eauto.
Qed.

Lemma digits_scalar (d : Decimal.uint) : forallb is_scalar (digits_of_uint d) = true.
Proof. induction d; simpl; auto. Qed.

Lemma zero_pad_scalar (w : nat) (s : str) :
  forallb is_scalar s = true -> forallb is_scalar (zero_pad w s) = true.
Proof.
  intros H. unfold zero_pad. rewrite forallb_app.
  apply andb_true_intro. split; [|exact H].
  induction (w - List.length s); simpl; auto.
Qed.

Lemma strftime_scalar (t : struct_time) : forallb is_scalar (strftime t) = true.
Proof.
  unfold strftime, str_of_nat.
  repeat (rewrite forallb_app; apply andb_true_intro; split);
    try apply zero_pad_scalar; try apply digits_scalar; reflexivity.
Qed.

Lemma two_digits (n : nat) :
  n < 100 ->
  exists a b, zero_pad 2 (str_of_nat n) = [a; b]
              /\ is_digit a = true /\ is_digit b = true.
Proof.
  intros Hn.
  assert (H : forallb (fun n => match zero_pad 2 (str_of_nat n) with
                                | [a; b] => is_digit a && is_digit b
                                | _ => false
                                end) (seq 0 100) = true) by (vm_compute; reflexivity).
  rewrite forallb_forall in H. specialize (H n).
  destruct (zero_pad 2 (str_of_nat n)) as [|a [|b [|]]];
    try (assert (false = true) by (apply H, in_seq; lia); discriminate).
  exists a, b. split; [reflexivity|].
  apply andb_prop. apply H, in_seq. lia.
Qed.

Lemma four_digits (n : nat) :
  n < 100 * 100 ->
  exists a b c d, zero_pad 4 (str_of_nat n) = [a; b; c; d]
                  /\ forallb is_digit [a; b; c; d] = true.
Proof.
  intros Hn.
  assert (H : forallb (fun n => match zero_pad 4 (str_of_nat n) with
                                | [a; b; c; d] => forallb is_digit [a; b; c; d]
                                | _ => false
                                end) (seq 0 (100 * 100)) = true) by (vm_compute; reflexivity).
  rewrite forallb_forall in H. specialize (H n).
  destruct (zero_pad 4 (str_of_nat n)) as [|a [|b [|c [|d [|]]]]];
    try (assert (false = true) by (apply H, in_seq; lia); discriminate).
  exists a, b, c, d. split; [reflexivity|].
  apply H, in_seq. lia.
Qed.

(** With a year of at most four digits and the other fields of at most
    two, the formatted local time has the shape "YYYY-MM-DD HH:MM:SS". *)
Lemma strftime_format (t : struct_time) :
  tm_year t < 100 * 100 -> tm_mon t < 100 -> tm_mday t < 100 ->
  tm_hour t < 100 -> tm_min t < 100 -> tm_sec t < 100 ->
  timestamp_format (strftime t) = true.
Proof.
  intros Hy Hm Hd Hh Hn Hs. unfold strftime.
  destruct (four_digits Hy) as (y1 & y2 & y3 & y4 & -> & Hyd).
  destruct (two_digits Hm) as (m1 & m2 & -> & Hm1 & Hm2).
  destruct (two_digits Hd) as (d1 & d2 & -> & Hd1 & Hd2).
  destruct (two_digits Hh) as (h1 & h2 & -> & Hh1 & Hh2).
  destruct (two_digits Hn) as (n1 & n2 & -> & Hn1 & Hn2).
  destruct (two_digits Hs) as (s1 & s2 & -> & Hs1 & Hs2).
  cbn [app lit list_ascii_of_string map timestamp_format].
  simpl in Hyd.
  repeat (apply andb_prop in Hyd; destruct Hyd as [?Hy Hyd]).
  cbn [forallb].
  repeat match goal with
         | H : is_digit _ = true |- _ => rewrite H; clear H
         end.
  reflexivity.
Qed.

Lemma strftime_format_valid (t : struct_time) :
  valid_local_time t = true -> timestamp_format (strftime t) = true.
Proof.
  unfold valid_local_time. intros H.
  repeat (apply andb_prop in H; destruct H as [H ?]).
  repeat match goal with
         | H : (_ <=? _) = true |- _ => apply Nat.leb_le in H
         | H : (_ <? _) = true |- _ => apply Nat.ltb_lt in H
         end.
  apply strftime_format; lia.
Qed.

(** The two codecs on samples: ASCII, two-, three- and four-byte forms are
    decoded back; an overlong form, an encoded surrogate, a lone
    continuation byte and a truncated sequence are refused, and a lone
    surrogate cannot be encoded. *)
Lemma utf8_samples :
  option_map utf8_decode (utf8_encode [0x68; 0xE9; 0x20AC; 0x1F600; 0x10FFFF]%N)
  = Some (Some [0x68; 0xE9; 0x20AC; 0x1F600; 0x10FFFF]%N)
  /\ utf8_encode [0xE9; 0x20AC]%N = Some [0xC3; 0xA9; 0xE2; 0x82; 0xAC]%N
  /\ utf8_decode [0xC0; 0x80]%N = None
  /\ utf8_decode [0xED; 0xA0; 0x80]%N = None
  /\ utf8_decode [0x80]%N = None
  /\ utf8_decode [0xE2; 0x82]%N = None
  /\ utf8_encode [0xD800]%N = None.
Proof. repeat split. Qed.

(** ** Publish mode *)

Lemma successful_sends_app (a b : trace) :
  successful_sends (a ++ b) = successful_sends a + successful_sends b.
Proof. unfold successful_sends. now rewrite filter_app, length_app. Qed.

(** The counter grows in a pass by the number of sends that returned. *)
Lemma iteration_body_count (py : platform) (message_count : nat) (it : Producer.iteration) :
  snd (fst (Producer.iteration_body py message_count it))
  = message_count + successful_sends (fst (fst (Producer.iteration_body py message_count it))).
Proof.
  unfold Producer.iteration_body, successful_sends.
  destruct (Producer.user_input it) as [line|e]; [|producer_except; simpl; lia].
  destruct (str_eqb _ _); [simpl; lia|].
  destruct (is_empty _); [simpl; lia|].
  destruct (utf8_encode _); [|producer_except; simpl; lia].
  destruct (Producer.send_reply it) as [msg_id|e];
    [|producer_except; simpl; lia].
  simpl. lia.
Qed.

Lemma while_true_count (py : platform) (its : list Producer.iteration) :
  forall message_count,
    snd (fst (Producer.while_true py message_count its))
    = message_count + successful_sends (fst (fst (Producer.while_true py message_count its))).
Proof.
  induction its as [|it rest IH]; intros message_count; simpl;
    [unfold successful_sends; simpl; lia|].
  pose proof (iteration_body_count py message_count it) as Hbody.
  destruct (Producer.iteration_body py message_count it) as [[t n] [[|]|e|]];
    simpl in *; try lia.
  specialize (IH n).
  destruct (Producer.while_true py n rest) as [[t' n'] c']. simpl in *.
  rewrite successful_sends_app. lia.
Qed.

Lemma guarded_loop_count (py : platform) (its : list Producer.iteration) :
  snd (fst (Producer.guarded_loop py its))
  = successful_sends (fst (fst (Producer.guarded_loop py its))).
Proof.
  unfold Producer.guarded_loop.
  pose proof (while_true_count py its 0) as H.
  destruct (Producer.while_true py 0 its) as [[t n] [[]|e|]]; simpl in *; try lia.
  destruct (is_KeyboardInterrupt e); simpl; [|lia].
  rewrite successful_sends_app. unfold successful_sends at 2. simpl. lia.
Qed.

(** C7: a line whose trimmed content is the exit keyword in any letter
    case ends the publish loop at once: the pass prints the farewell and
    breaks, nothing is transmitted, the sent-count is unchanged and no
    later reply is consumed. *)
Theorem exit_keyword_terminates
    (py : platform) (message_count : nat) (it : Producer.iteration)
    (line : str) (rest : list Producer.iteration) :
  Producer.user_input it = Returns line ->
  equals_ignoring_case (strip line) (lit "exit") ->
  Producer.iteration_body py message_count it
  = ([Input Producer.prompt (Returns line);
      Producer.println (lit "Exiting producer...")],
     message_count, Done Break)
  /\ Producer.while_true py message_count (it :: rest)
     = ([Input Producer.prompt (Returns line);
         Producer.println (lit "Exiting producer...")],
        message_count, Done tt)
  /\ sends (fst (fst (Producer.while_true py message_count (it :: rest)))) = [].
Proof.
  intros Hin Hexit.
  assert (Hlow : str_eqb (lower py (strip line)) (lit "exit") = true).
  { apply str_eqb_eq.
    rewrite (@lower_of_caseless_match py (strip line) (lit "exit")); auto.
    repeat constructor. }
  assert (Hbody : Producer.iteration_body py message_count it
                  = ([Input Producer.prompt (Returns line);
                      Producer.println (lit "Exiting producer...")],
                     message_count, Done Break)).
  { unfold Producer.iteration_body. rewrite Hin, Hlow. reflexivity. }
  split; [exact Hbody|].
  cbn [Producer.while_true]. rewrite Hbody. split; reflexivity.
Qed.

Lemma exit_keyword_terminates_witness :
  Producer.while_true posix 3
    [typed " EXIT " (Returns (lit "(0,1,-1,0)")); typed "late" (Returns (lit "(0,2,-1,0)"))]
  = ([Input Producer.prompt (Returns (lit " EXIT "));
      Producer.println (lit "Exiting producer...")],
     3, Done tt).
Proof.
  exact (proj1 (proj2 (@exit_keyword_terminates posix 3
                         (typed " EXIT " (Returns (lit "(0,1,-1,0)"))) (lit " EXIT ")
                         [typed "late" (Returns (lit "(0,2,-1,0)"))]
                         eq_refl eq_refl))).
Defined.

(** The three spellings the specification lists all match. *)
Lemma exit_spellings :
  equals_ignoring_case (lit "exit") (lit "exit")
  /\ equals_ignoring_case (lit "EXIT") (lit "exit")
  /\ equals_ignoring_case (lit "Exit") (lit "exit").
Proof. repeat split. Qed.

(** C1, as the code has it: for a line whose trimmed content is not
    empty, is not the exit keyword once lower-cased, and is well-formed
    text, the pass transmits exactly one payload, the UTF-8 encoding of
    the trimmed content followed by " - " and the formatted local time
    (of the shape "YYYY-MM-DD HH:MM:SS" for a calendar time); the
    sent-count increments by exactly one when that send returns. *)
Theorem trimmed_line_is_timestamped_and_sent
    (py : platform) (message_count : nat) (it : Producer.iteration) (line : str) :
  Producer.user_input it = Returns line ->
  strip line <> [] ->
  lower py (strip line) <> lit "exit" ->
  forallb is_scalar (strip line) = true ->
  let text := strip line ++ lit " - " ++ strftime (Producer.local_time it) in
  let r := Producer.iteration_body py message_count it in
  exists payload,
    utf8_encode text = Some payload
    /\ firstn 2 (fst (fst r))
       = [Input Producer.prompt (Returns line); Send payload (Producer.send_reply it)]
    /\ sends (fst (fst r)) = [payload]
    /\ (forall msg_id, Producer.send_reply it = Returns msg_id ->
          snd (fst r) = S message_count /\ snd r = Done Continue)
    /\ (valid_local_time (Producer.local_time it) = true ->
          timestamp_format (strftime (Producer.local_time it)) = true).
Proof.
  intros Hin Hne Hexit Hsc text r.
  destruct (@utf8_encode_scalar text) as (payload & Henc).
  { unfold text. rewrite !forallb_app.
    apply andb_true_intro; split; [exact Hsc|].
    apply andb_true_intro; split; [reflexivity | apply strftime_scalar]. }
  exists payload. split; [exact Henc|].
  assert (Hr : r = match Producer.send_reply it with
                   | Raises e =>
                       Producer.inner_except
                         ([Input Producer.prompt (Returns line)]
                          ++ [Send payload (Producer.send_reply it)]) message_count e
                   | Returns msg_id =>
                       (([Input Producer.prompt (Returns line)]
                         ++ [Send payload (Producer.send_reply it)])
                        ++ [Producer.println (Producer.sent_line msg_id);
                            Producer.println []],
                        S message_count, Done Continue)
                   end).
  { unfold r, Producer.iteration_body. rewrite Hin.
    apply str_eqb_neq in Hexit. rewrite Hexit.
    assert (Hfull : is_empty (strip line) = false)
      by (destruct (strip line); [congruence | reflexivity]).
    rewrite Hfull. unfold text in Henc. rewrite Henc. reflexivity. }
  rewrite Hr. clear Hr.
  destruct (Producer.send_reply it) as [msg_id|e].
  - split; [reflexivity|]. split; [reflexivity|].
    split; [intros ? _; split; reflexivity|].
    apply strftime_format_valid.
  - split; [producer_except; reflexivity|].
    split; [producer_except; reflexivity|].
    split; [discriminate|].
    apply strftime_format_valid.
Qed.

Lemma trimmed_line_is_timestamped_and_sent_witness :
  sends (fst (fst (Producer.iteration_body posix 0 (typed "hello" (Returns (lit "(0,1,-1,0)"))))))
  = [lit "hello - 2024-01-01 10:00:00"]
  /\ snd (fst (Producer.iteration_body posix 0 (typed "hello" (Returns (lit "(0,1,-1,0)"))))) = 1.
Proof.
  destruct (@trimmed_line_is_timestamped_and_sent posix 0
              (typed "hello" (Returns (lit "(0,1,-1,0)"))) (lit "hello")
              eq_refl ltac:(discriminate) ltac:(discriminate) eq_refl)
    as (payload & Henc & _ & Hsends & Hcount & _).
  split.
  - rewrite Hsends. f_equal. injection Henc as <-. reflexivity.
  - exact (proj1 (Hcount _ eq_refl)).
Defined.

(** C1 as written fails in three ways: the payload carries the trimmed
    line, not the line; a non-empty line that is the exit keyword is not
    transmitted; and a non-empty line whose send fails is not counted. *)
Lemma line_not_sent_verbatim :
  let sent := fun it => sends (fst (fst (Producer.iteration_body posix 0 it))) in
  let count := fun it => snd (fst (Producer.iteration_body posix 0 it)) in
  sent (typed " hi " (Returns (lit "(0,1,-1,0)")))
    = [lit "hi - 2024-01-01 10:00:00"]
  /\ utf8_encode (lit " hi " ++ lit " - " ++ strftime new_year_10am)
     = Some (lit " hi  - 2024-01-01 10:00:00")
  /\ lit "hi - 2024-01-01 10:00:00" <> lit " hi  - 2024-01-01 10:00:00"
  /\ sent (typed "exit" (Returns (lit "(0,1,-1,0)"))) = []
  /\ count (typed "exit" (Returns (lit "(0,1,-1,0)"))) = 0
  /\ count (typed "hi" (Raises broker_failure)) = 0.
Proof.
  repeat split. discriminate.
Qed.

(** A pass in which the send reports a failure leaves the counter alone
    and returns to the head of the loop. *)
Lemma failed_send_continues
    (py : platform) (message_count : nat) (it : Producer.iteration)
    (payload : bytes) (e : exn) :
  sends (fst (fst (Producer.iteration_body py message_count it))) = [payload] ->
  Producer.send_reply it = Raises e ->
  exn_cls e = OtherException ->
  Producer.iteration_body py message_count it
  = ([Input Producer.prompt (Producer.user_input it);
      Send payload (Raises e);
      Producer.println (lit "Error sending message: " ++ exn_text e)],
     message_count, Done Continue).
Proof.
  intros Hs Hsend Hcls. revert Hs.
  unfold Producer.iteration_body, sends.
  destruct (Producer.user_input it) as [line|e0];
    [|producer_except; simpl; discriminate].
  destruct (str_eqb _ _); [simpl; discriminate|].
  destruct (is_empty _); [simpl; discriminate|].
  destruct (utf8_encode _) as [p|]; [|producer_except; simpl; discriminate].
  rewrite Hsend. unfold Producer.inner_except, is_EOFError, is_Exception.
  rewrite Hcls. simpl. intros [= ->]. reflexivity.
Qed.

(** C10: the sent-count grows only when a send returns.  A pass whose
    send reports a failure leaves the count unchanged and the loop goes
    on with the next line; whatever the operator and the broker do, the
    count equals the number of sends that returned, and that number is the
    total printed when the loop has terminated. *)
Theorem sent_count_is_successful_sends
    (py : platform) (its : list Producer.iteration) :
  let loop := Producer.guarded_loop py its in
  let session := Producer.send_messages_interactive py its in
  snd (fst loop) = successful_sends (fst (fst loop))
  /\ (snd loop = Done tt ->
      snd session = Done tt
      /\ exists before,
           fst session
           = before ++ [Producer.println
                          (Producer.total_line (successful_sends (fst session)));
                        Producer.println (lit "Producer session ended.")])
  /\ (forall message_count it rest payload e,
        sends (fst (fst (Producer.iteration_body py message_count it))) = [payload] ->
        Producer.send_reply it = Raises e ->
        exn_cls e = OtherException ->
        snd (fst (Producer.iteration_body py message_count it)) = message_count
        /\ snd (Producer.iteration_body py message_count it) = Done Continue
        /\ Producer.while_true py message_count (it :: rest)
           = (let '(t', n', c') := Producer.while_true py message_count rest in
              (fst (fst (Producer.iteration_body py message_count it)) ++ t', n', c'))).
Proof.
  intros loop session.
  pose proof (guarded_loop_count py its) as Hcount. fold loop in Hcount.
  split; [exact Hcount|]. split.
  - intros Hdone. unfold session, Producer.send_messages_interactive.
    fold loop. destruct loop as [[t n] c]. simpl in Hcount, Hdone. subst c.
    unfold print, bind. simpl. split; [reflexivity|].
    match goal with
    | |- context [successful_sends ?x] => replace (successful_sends x) with n
    end.
    + eexists (_ :: _ :: _ :: _ :: t). reflexivity.
    + rewrite Hcount. unfold successful_sends. simpl.
      rewrite filter_app, length_app. simpl. lia.
  - intros message_count it rest payload e Hs Hsend Hcls.
    pose proof (failed_send_continues py message_count it Hs Hsend Hcls) as Hbody.
    cbn [Producer.while_true]. rewrite Hbody. simpl. repeat split.
Qed.

Lemma sent_count_is_successful_sends_witness :
  snd (fst (Producer.guarded_loop posix
              [typed "one" (Returns (lit "(0,1,-1,0)"));
               typed "two" (Raises broker_failure);
               typed "three" (Returns (lit "(0,2,-1,0)"));
               typed "exit" (Returns [])]))
  = 2.
Proof.
  exact (proj1 (@sent_count_is_successful_sends posix
                  [typed "one" (Returns (lit "(0,1,-1,0)"));
                   typed "two" (Raises broker_failure);
                   typed "three" (Returns (lit "(0,2,-1,0)"));
                   typed "exit" (Returns [])])).
Defined.

(** ** Subscribe mode *)

(** What a poll does whose failure passes the time-out test: the receive
    call, then the marker when it is due, and back to the head of the
    loop. *)
Lemma timeout_poll (py : platform) (message_count : nat) (p : Consumer.poll) :
  passes_timeout_test (Consumer.receive_reply p) = true ->
  Consumer.poll_body py message_count p
  = ([Receive 5000 (Consumer.receive_reply p)]
     ++ (if Consumer.marker_due message_count p then [Consumer.marker] else []),
     message_count, Done Continue).
Proof.
  unfold passes_timeout_test, Consumer.poll_body, Consumer.inner_except.
  destruct (Consumer.receive_reply p) as [m|e]; [discriminate|].
  intros H. apply andb_prop in H. destruct H as [-> ->].
  destruct (Consumer.marker_due message_count p); reflexivity.
Qed.

(** On that path the marker is printed exactly when no message has been
    received yet or the wall-clock second is a multiple of 30. *)
Lemma marker_rule (py : platform) (message_count : nat) (p : Consumer.poll) :
  passes_timeout_test (Consumer.receive_reply p) = true ->
  markers (fst (fst (Consumer.poll_body py message_count p)))
  = if (message_count =? 0) || (Consumer.epoch_seconds p mod 30 =? 0)%Z then 1 else 0.
Proof.
  intros H. rewrite (timeout_poll py message_count p H).
  unfold Consumer.marker_due.
  destruct ((message_count =? 0) || (Consumer.epoch_seconds p mod 30 =? 0)%Z);
    reflexivity.
Qed.

(** A poll whose receive failed, on either path of the handler: the
    counter is untouched, nothing is acknowledged, and the loop goes on
    once the pause, if one is taken, has returned. *)
Lemma failed_poll_resumes (py : platform) (message_count : nat) (p : Consumer.poll) :
  receive_failed (Consumer.receive_reply p) = true ->
  passes_timeout_test (Consumer.receive_reply p) = true
  \/ Consumer.sleep_reply p = Returns tt ->
  exists t,
    Consumer.poll_body py message_count p = (t, message_count, Done Continue)
    /\ acks t = [] /\ receives t = 1.
Proof.
  intros Hfail Hgo.
  destruct (passes_timeout_test (Consumer.receive_reply p)) eqn:Htest.
  - rewrite (timeout_poll py message_count p Htest).
    eexists. split; [reflexivity|].
    destruct (Consumer.marker_due message_count p); split; reflexivity.
  - destruct Hgo as [Hgo|Hsleep]; [discriminate|].
    unfold receive_failed in Hfail. unfold passes_timeout_test in Htest.
    unfold Consumer.poll_body, Consumer.inner_except.
    destruct (Consumer.receive_reply p) as [m|e]; [discriminate|].
    rewrite Hfail in *. simpl in Htest. rewrite Htest, Hsleep.
    eexists. split; [reflexivity|]. split; reflexivity.
Qed.

(** C8: a receive time-out (an exception of class [Exception] raised by
    the receive call, whatever its text) leaves the received-count as it
    was, makes no acknowledgement call and goes back to polling; after
    any number of consecutive time-outs, the pauses taken on the way
    having returned, the count is unchanged (0 when the loop started with
    them), nothing was acknowledged, one receive was issued per time-out
    and the loop has not exited. *)
Theorem timeouts_keep_polling
    (py : platform) (ps : list Consumer.poll) (message_count : nat) :
  Forall (fun p => receive_failed (Consumer.receive_reply p) = true
                   /\ (passes_timeout_test (Consumer.receive_reply p) = true
                       \/ Consumer.sleep_reply p = Returns tt)) ps ->
  let r := Consumer.while_true py message_count ps in
  snd (fst r) = message_count
  /\ snd r = Pending
  /\ acks (fst (fst r)) = []
  /\ receives (fst (fst r)) = List.length ps
  /\ snd (fst (Consumer.guarded_loop py ps)) = 0
  /\ snd (Consumer.consume_messages_continuous py ps) = Pending.
Proof.
  intros H.
  assert (Hloop : forall n,
            snd (fst (Consumer.while_true py n ps)) = n
            /\ snd (Consumer.while_true py n ps) = Pending
            /\ acks (fst (fst (Consumer.while_true py n ps))) = []
            /\ receives (fst (fst (Consumer.while_true py n ps))) = List.length ps).
  { induction H as [|p ps [Hfail Hgo] _ IH]; intros n; [repeat split|].
    cbn [Consumer.while_true].
    destruct (failed_poll_resumes py n p Hfail Hgo) as (t & -> & Hat & Hrt).
    destruct (IH n) as (Hn & Hc & Ha & Hr).
    destruct (Consumer.while_true py n ps) as [[t' n'] c']. simpl in *.
    subst. repeat split.
    - unfold acks in *. now rewrite flat_map_app, Hat, Ha.
    - unfold receives in *. rewrite filter_app, length_app. lia. }
  intros r. destruct (Hloop message_count) as (Hn & Hc & Ha & Hr).
  repeat split; try assumption.
  - unfold Consumer.guarded_loop. destruct (Hloop 0) as (Hn0 & Hc0 & _).
    destruct (Consumer.while_true py 0 ps) as [[t n] c]. simpl in *. now subst.
  - unfold Consumer.consume_messages_continuous, Consumer.guarded_loop.
    destruct (Hloop 0) as (Hn0 & Hc0 & _).
    destruct (Consumer.while_true py 0 ps) as [[t n] c]. simpl in *. now subst.
Qed.

Lemma timeouts_keep_polling_witness :
  let five := repeat (polled (Raises broker_timeout) 1700000011) 5 in
  snd (fst (Consumer.while_true posix 0 five)) = 0
  /\ snd (Consumer.while_true posix 0 five) = Pending.
Proof.
  pose proof (@timeouts_keep_polling posix
                (repeat (polled (Raises broker_timeout) 1700000011) 5) 0
                ltac:(repeat (constructor; [split; [reflexivity | right; reflexivity]|]);
                      constructor)) as H.
  exact (conj (proj1 H) (proj1 (proj2 H))).
Defined.

(** C4 at a failing input: three receive time-outs as the broker client
    raises them, the first on a wall-clock second that is a multiple of
    30, print no liveness marker at all, neither before the first
    message nor after it: the text of the time-out does not pass the
    test, so each one prints the error line and is followed by the
    one-second pause. *)
Lemma client_timeouts_print_no_marker :
  let ps := [polled (Raises broker_timeout) 1700000010;
             polled (Raises broker_timeout) 1700000016;
             polled (Raises broker_timeout) 1700000022] in
  let before_first := fst (fst (Consumer.while_true posix 0 ps)) in
  let after_first := fst (fst (Consumer.while_true posix 1 ps)) in
  map (fun p => (Consumer.epoch_seconds p mod 30)%Z) ps = [0; 6; 12]%Z
  /\ passes_timeout_test (Raises broker_timeout) = false
  /\ markers before_first = 0
  /\ markers after_first = 0
  /\ printed before_first
     = repeat (lit "Error receiving message: Pulsar error: TimeOut" ++ [nl]) 3
  /\ sleeps before_first = [1; 1; 1]%Z.
Proof. repeat split. Qed.

(** Every pass begins by issuing its receive call. *)
Lemma poll_body_head (py : platform) (message_count : nat) (p : Consumer.poll) :
  exists tail,
    fst (fst (Consumer.poll_body py message_count p))
    = Receive 5000 (Consumer.receive_reply p) :: tail.
Proof.
  unfold Consumer.poll_body.
  destruct (Consumer.receive_reply p) as [m|e];
    [|consumer_except; eexists; reflexivity].
  destruct (utf8_decode (msg_data m));
    [|consumer_except; eexists; reflexivity].
  destruct (Consumer.report_reply p);
    [|consumer_except; eexists; reflexivity].
  destruct (Consumer.acknowledge_reply p);
    [|consumer_except]; eexists; reflexivity.
Qed.

(** The trace of the loop is empty or begins with a receive call. *)
Lemma while_true_head (py : platform) (ps : list Consumer.poll) (message_count : nat) :
  until_receive (fst (fst (Consumer.while_true py message_count ps))) = [].
Proof.
  destruct ps as [|p rest]; [reflexivity|].
  cbn [Consumer.while_true].
  destruct (poll_body_head py message_count p) as (tail & Hhead).
  destruct (Consumer.poll_body py message_count p) as [[t n] [[|]|e|]];
    simpl in Hhead; subst t; try reflexivity.
  destruct (Consumer.while_true py n rest) as [[t' n'] c']. reflexivity.
Qed.

Lemma until_receive_prefix (a b : trace) :
  receives a = 0 -> until_receive b = [] -> until_receive (a ++ b) = a.
Proof.
  intros Ha Hb. induction a as [|x a IH]; [exact Hb|].
  unfold receives in *.
  destruct x; simpl in *; try discriminate; now rewrite IH.
Qed.

(** The trace of the loop is the trace of its first pass followed by what
    the later passes do, which starts with the next receive call. *)
Lemma while_true_cons_trace
    (py : platform) (message_count : nat) (p : Consumer.poll) (rest : list Consumer.poll) :
  exists later,
    fst (fst (Consumer.while_true py message_count (p :: rest)))
    = fst (fst (Consumer.poll_body py message_count p)) ++ later
    /\ until_receive later = [].
Proof.
  cbn [Consumer.while_true].
  destruct (Consumer.poll_body py message_count p) as [[t n] [[|]|e|]];
    try (exists []; split; [simpl; now rewrite app_nil_r | reflexivity]).
  pose proof (while_true_head py rest n) as Hhead.
  destruct (Consumer.while_true py n rest) as [[t' n'] c'].
  exists t'. split; [reflexivity | exact Hhead].
Qed.

(** A pass that received a message whose payload decodes and is shown:
    after the receive call, no further receive and one acknowledgement,
    of that message. *)
Lemma decodable_poll
    (py : platform) (message_count : nat) (p : Consumer.poll) (m : message) (text : str) :
  Consumer.receive_reply p = Returns m ->
  utf8_decode (msg_data m) = Some text ->
  Consumer.report_reply p = Returns tt ->
  exists tail,
    fst (fst (Consumer.poll_body py message_count p)) = Receive 5000 (Returns m) :: tail
    /\ receives tail = 0 /\ acks tail = [m].
Proof.
  intros Hr Hd Hshow. unfold Consumer.poll_body. rewrite Hr, Hd, Hshow.
  destruct (Consumer.acknowledge_reply p);
    [|consumer_except]; eexists; (split; [reflexivity | split; reflexivity]).
Qed.

Lemma received_poll_count
    (py : platform) (message_count : nat) (p : Consumer.poll) (m : message) :
  Consumer.receive_reply p = Returns m ->
  snd (fst (Consumer.poll_body py message_count p)) = S message_count.
Proof.
  intros Hr. unfold Consumer.poll_body. rewrite Hr.
  destruct (utf8_decode (msg_data m)); [|consumer_except; reflexivity].
  destruct (Consumer.report_reply p); [|consumer_except; reflexivity].
  destruct (Consumer.acknowledge_reply p); [|consumer_except]; reflexivity.
Qed.

(** C2, as the code has it: every receive that returns a message
    increments the received-count by exactly one; when the payload of the
    message decodes as UTF-8 and the report of the message is printed
    (the output accepts the payload line), exactly one acknowledgement
    call is made between that receive and the next receive call (or the
    end of the loop), and it is for that message. *)
Theorem received_message_is_counted_and_acknowledged
    (py : platform) (message_count : nat) (p : Consumer.poll) (m : message)
    (rest : list Consumer.poll) :
  Consumer.receive_reply p = Returns m ->
  snd (fst (Consumer.poll_body py message_count p)) = S message_count
  /\ (forall text, utf8_decode (msg_data m) = Some text ->
        Consumer.report_reply p = Returns tt ->
        exists after,
          fst (fst (Consumer.while_true py message_count (p :: rest)))
          = Receive 5000 (Returns m) :: after
          /\ acks (until_receive after) = [m]).
Proof.
  intros Hr. split; [exact (@received_poll_count py message_count p m Hr)|].
  intros text Hd Hshow.
  destruct (@decodable_poll py message_count p m text Hr Hd Hshow)
    as (tail & Hbody & Hrecv & Hack).
  destruct (while_true_cons_trace py message_count p rest) as (later & Hloop & Hlater).
  exists (tail ++ later). split.
  - rewrite Hloop, Hbody. reflexivity.
  - now rewrite (@until_receive_prefix tail later Hrecv Hlater).
Qed.

Lemma received_message_is_counted_and_acknowledged_witness :
  let hello := {| msg_data := lit "hello - 2024-01-01 10:00:00"; msg_id := lit "(0,1,-1,0)" |} in
  let p := polled (Returns hello) 1700000011 in
  snd (fst (Consumer.poll_body posix 0 p)) = 1
  /\ exists after,
       fst (fst (Consumer.while_true posix 0 [p; polled (Raises broker_timeout) 1700000017]))
       = Receive 5000 (Returns hello) :: after
       /\ acks (until_receive after) = [hello].
Proof.
  pose proof (@received_message_is_counted_and_acknowledged posix 0
                (polled (Returns {| msg_data := lit "hello - 2024-01-01 10:00:00";
                                    msg_id := lit "(0,1,-1,0)" |}) 1700000011)
                _ [polled (Raises broker_timeout) 1700000017] eq_refl) as H.
  exact (conj (proj1 H) (proj2 H (lit "hello - 2024-01-01 10:00:00") eq_refl eq_refl)).
Defined.

(** C2 as written fails: a message whose payload is the single byte 0xFF
    is received and counted, decoding it raises, and the loop issues the
    next receive without any acknowledgement call. *)
Lemma undecodable_message_not_acknowledged :
  let bad := {| msg_data := [0xFF%N]; msg_id := lit "(0,1,-1,0)" |} in
  let ps := [polled (Returns bad) 1700000011; polled (Raises broker_timeout) 1700000017] in
  let r := Consumer.while_true posix 0 ps in
  utf8_decode (msg_data bad) = None
  /\ snd (fst r) = 1
  /\ receives (fst (fst r)) = 2
  /\ acks (fst (fst r)) = []
  /\ snd r = Pending.
Proof. repeat split. Qed.

(** The same happens to a message whose payload decodes but whose
    payload line the output refuses: it is counted, the print raises,
    and the next receive is issued without an acknowledgement. *)
Lemma unshown_message_not_acknowledged :
  let tick := {| msg_data := [0xE2; 0x9C; 0x93]%N; msg_id := lit "(0,1,-1,0)" |} in
  let refused := {| exn_cls := OtherException;
                    exn_text := lit "'charmap' codec can't encode character" |} in
  let ps := [{| Consumer.receive_reply := Returns tick;
                Consumer.report_reply := Raises refused;
                Consumer.local_time := new_year_10am;
                Consumer.acknowledge_reply := Returns tt;
                Consumer.epoch_seconds := 1700000011;
                Consumer.sleep_reply := Returns tt |};
             polled (Raises broker_timeout) 1700000017] in
  let r := Consumer.while_true posix 0 ps in
  utf8_decode (msg_data tick) = Some [0x2713%N]
  /\ snd (fst r) = 1
  /\ receives (fst (fst r)) = 2
  /\ acks (fst (fst r)) = []
  /\ snd r = Pending.
Proof. repeat split. Qed.

(** ** Shutdown *)

Lemma closes_app (a b : trace) : closes (a ++ b) = closes a ++ closes b.
Proof. unfold closes. apply flat_map_app. Qed.

Lemma producer_body_closes (py : platform) (message_count : nat) (it : Producer.iteration) :
  closes (fst (fst (Producer.iteration_body py message_count it))) = [].
Proof.
  unfold Producer.iteration_body.
  destruct (Producer.user_input it); [|producer_except; reflexivity].
  destruct (str_eqb _ _); [reflexivity|].
  destruct (is_empty _); [reflexivity|].
  destruct (utf8_encode _); [|producer_except; reflexivity].
  destruct (Producer.send_reply it); [|producer_except]; reflexivity.
Qed.

Lemma producer_loop_closes (py : platform) (its : list Producer.iteration) :
  forall message_count,
    closes (fst (fst (Producer.while_true py message_count its))) = [].
Proof.
  induction its as [|it rest IH]; intros message_count; [reflexivity|].
  cbn [Producer.while_true].
  pose proof (producer_body_closes py message_count it) as Hbody.
  destruct (Producer.iteration_body py message_count it) as [[t n] [[|]|e|]];
    simpl in *; try exact Hbody.
  specialize (IH n). destruct (Producer.while_true py n rest) as [[t' n'] c'].
  simpl in *. now rewrite closes_app, Hbody, IH.
Qed.

Lemma producer_session_closes (py : platform) (its : list Producer.iteration) :
  closes (fst (Producer.send_messages_interactive py its)) = [].
Proof.
  unfold Producer.send_messages_interactive, Producer.guarded_loop.
  pose proof (producer_loop_closes py its 0) as H.
  destruct (Producer.while_true py 0 its) as [[t n] [[]|e|]]; simpl in *.
  - now rewrite closes_app, H.
  - destruct (is_KeyboardInterrupt e); simpl; [|exact H].
    now rewrite !closes_app, H.
  - exact H.
Qed.

Lemma consumer_body_closes (py : platform) (message_count : nat) (p : Consumer.poll) :
  closes (fst (fst (Consumer.poll_body py message_count p))) = [].
Proof.
  unfold Consumer.poll_body.
  destruct (Consumer.receive_reply p) as [m|e]; [|consumer_except; reflexivity].
  destruct (utf8_decode (msg_data m)); [|consumer_except; reflexivity].
  destruct (Consumer.report_reply p); [|consumer_except; reflexivity].
  destruct (Consumer.acknowledge_reply p); [|consumer_except]; reflexivity.
Qed.

Lemma consumer_loop_closes (py : platform) (ps : list Consumer.poll) :
  forall message_count,
    closes (fst (fst (Consumer.while_true py message_count ps))) = [].
Proof.
  induction ps as [|p rest IH]; intros message_count; [reflexivity|].
  cbn [Consumer.while_true].
  pose proof (consumer_body_closes py message_count p) as Hbody.
  destruct (Consumer.poll_body py message_count p) as [[t n] [[|]|e|]];
    simpl in *; try exact Hbody.
  specialize (IH n). destruct (Consumer.while_true py n rest) as [[t' n'] c'].
  simpl in *. now rewrite closes_app, Hbody, IH.
Qed.

Lemma consumer_session_closes (py : platform) (ps : list Consumer.poll) :
  closes (fst (Consumer.consume_messages_continuous py ps)) = [].
Proof.
  unfold Consumer.consume_messages_continuous, Consumer.guarded_loop.
  pose proof (consumer_loop_closes py ps 0) as H.
  destruct (Consumer.while_true py 0 ps) as [[t n] [[]|e|]]; simpl in *.
  - now rewrite closes_app, H.
  - destruct (is_KeyboardInterrupt e); simpl; [|exact H].
    now rewrite !closes_app, H.
  - exact H.
Qed.

Lemma create_producer_closes (py : platform) (w : Producer.world) :
  closes (fst (Producer.create_producer py w)) = [].
Proof.
  unfold Producer.create_producer, read_token_from_file, call, try_except, bind,
    print, sys_exit, raise, ret.
  split_replies; reflexivity.
Qed.

Lemma create_consumer_closes (py : platform) (w : Consumer.world) :
  closes (fst (Consumer.create_consumer py w)) = [].
Proof.
  unfold Consumer.create_consumer, read_token_from_file, call, try_except, bind,
    print, sys_exit, raise, ret.
  split_replies; reflexivity.
Qed.

(** The [try / except / finally] of the producer's [main]: however its
    body ended, the channel handle is closed first, and the session after
    it when that close returned. *)
Lemma producer_main_try_closes (body : run unit) (w : Producer.world) :
  snd body <> Pending ->
  closes (fst (Producer.main_try body w))
  = closes (fst body) ++ ProducerHandle :: then_session (Producer.close_producer_reply w).
Proof.
  destruct body as [t [[]|e|]]; intros Hend; [| |exfalso; apply Hend; reflexivity];
    unfold Producer.main_try, Producer.shutdown, try_finally, try_except, call, bind, print;
    simpl; split_replies; simpl; rewrite ?closes_app; simpl;
    rewrite ?app_nil_r; reflexivity.
Qed.

Lemma consumer_main_try_closes (body : run unit) (w : Consumer.world) :
  snd body <> Pending ->
  closes (fst (Consumer.main_try body w))
  = closes (fst body) ++ ConsumerHandle :: then_session (Consumer.close_consumer_reply w).
Proof.
  destruct body as [t [[]|e|]]; intros Hend; [| |exfalso; apply Hend; reflexivity];
    unfold Consumer.main_try, Consumer.shutdown, try_finally, try_except, call, bind, print;
    simpl; split_replies; simpl; rewrite ?closes_app; simpl;
    rewrite ?app_nil_r; reflexivity.
Qed.

Lemma producer_main_trace (py : platform) (w : Producer.world) :
  snd (Producer.create_producer py w) = Done tt ->
  exists banner,
    closes banner = []
    /\ fst (Producer.main py w)
       = banner ++ fst (Producer.main_try
                          (Producer.send_messages_interactive py (Producer.iterations w)) w).
Proof.
  intros Hc. unfold Producer.main.
  pose proof (create_producer_closes py w) as Hcl.
  destruct (Producer.create_producer py w) as [tc c]. simpl in Hc, Hcl. subst c.
  destruct (Producer.main_try _ w) as [tm cm].
  exists ([Print (repeat 61%N 50 ++ [10%N]);
           Print (lit "Pulsar Producer with JWT Authentication" ++ [10%N]);
           Print (lit "Client: client1 (Producer permissions)" ++ [10%N]);
           Print (repeat 61%N 50 ++ [10%N])] ++ tc).
  split; [now rewrite closes_app, Hcl|].
  reflexivity.
Qed.

Lemma consumer_main_trace (py : platform) (w : Consumer.world) :
  snd (Consumer.create_consumer py w) = Done tt ->
  exists banner,
    closes banner = []
    /\ fst (Consumer.main py w)
       = banner ++ fst (Consumer.main_try
                          (Consumer.consume_messages_continuous py (Consumer.polls w)) w).
Proof.
  intros Hc. unfold Consumer.main.
  pose proof (create_consumer_closes py w) as Hcl.
  destruct (Consumer.create_consumer py w) as [tc c]. simpl in Hc, Hcl. subst c.
  destruct (Consumer.main_try _ w) as [tm cm].
  exists ([Print (repeat 61%N 50 ++ [10%N]);
           Print (lit "Pulsar Consumer with JWT Authentication" ++ [10%N]);
           Print (lit "Client: client2 (Consumer permissions)" ++ [10%N]);
           Print (repeat 61%N 50 ++ [10%N])] ++ tc).
  split; [now rewrite closes_app, Hcl|].
  reflexivity.
Qed.

(** C3, as the code has it: on every way out of the interaction loop of
    either process (it returned after the exit keyword, the end of input
    or a caught interrupt, or an interrupt or another exception propagated
    out of it), the shutdown handler calls the release of the channel
    handle first; the release of the client session follows, so that both
    occur in that order, whenever the release of the channel handle
    returns.  The same holds of the whole [main] of each process once the
    connection was set up. *)
Theorem shutdown_releases_channel_then_session
    (py : platform) (wp : Producer.world) (wc : Consumer.world) :
  (forall body, snd body <> Pending ->
     closes (fst (Producer.main_try body wp))
     = closes (fst body)
       ++ ProducerHandle :: then_session (Producer.close_producer_reply wp))
  /\ (forall body, snd body <> Pending ->
        closes (fst (Consumer.main_try body wc))
        = closes (fst body)
          ++ ConsumerHandle :: then_session (Consumer.close_consumer_reply wc))
  /\ (snd (Producer.create_producer py wp) = Done tt ->
      snd (Producer.send_messages_interactive py (Producer.iterations wp)) <> Pending ->
      closes (fst (Producer.main py wp))
      = ProducerHandle :: then_session (Producer.close_producer_reply wp))
  /\ (snd (Consumer.create_consumer py wc) = Done tt ->
      snd (Consumer.consume_messages_continuous py (Consumer.polls wc)) <> Pending ->
      closes (fst (Consumer.main py wc))
      = ConsumerHandle :: then_session (Consumer.close_consumer_reply wc)).
Proof.
  split; [intros body; apply producer_main_try_closes|].
  split; [intros body; apply consumer_main_try_closes|].
  split.
  - intros Hc Hend.
    destruct (producer_main_trace py wp Hc) as (banner & Hb & ->).
    rewrite closes_app, Hb, (producer_main_try_closes _ wp Hend).
    now rewrite producer_session_closes.
  - intros Hc Hend.
    destruct (consumer_main_trace py wc Hc) as (banner & Hb & ->).
    rewrite closes_app, Hb, (consumer_main_try_closes _ wc Hend).
    now rewrite consumer_session_closes.
Qed.

Lemma shutdown_releases_channel_then_session_witness :
  closes (fst (Producer.main posix
                 (producer_world [typed "hello" (Returns (lit "(0,1,-1,0)"));
                                  typed "exit" (Returns [])] (Returns tt))))
  = [ProducerHandle; ClientHandle]
  /\ closes (fst (Consumer.main posix
                    (consumer_world [polled (Raises broker_timeout) 1700000011;
                                     polled (Raises interrupt) 1700000013] (Returns tt))))
     = [ConsumerHandle; ClientHandle].
Proof.
  pose proof (@shutdown_releases_channel_then_session posix
                (producer_world [typed "hello" (Returns (lit "(0,1,-1,0)"));
                                 typed "exit" (Returns [])] (Returns tt))
                (consumer_world [polled (Raises broker_timeout) 1700000011;
                                 polled (Raises interrupt) 1700000013] (Returns tt)))
    as (_ & _ & Hp & Hc).
  split.
  - exact (Hp eq_refl ltac:(discriminate)).
  - exact (Hc eq_refl ltac:(discriminate)).
Defined.

(** C3 as written fails: the operator types the exit keyword, the loop
    returns, and the release of the producer handle raises; the release
    of the client session is then never called. *)
Lemma session_not_released_when_channel_close_raises :
  let w := producer_world [typed "exit" (Returns [])] (Raises broker_failure) in
  snd (Producer.send_messages_interactive posix (Producer.iterations w)) = Done tt
  /\ closes (fst (Producer.main posix w)) = [ProducerHandle]
  /\ snd (Producer.main posix w) = Raise broker_failure.
Proof. repeat split. Qed.

(** ** UTF-8 round trip *)

Ltac nlia := zify; Z.to_euclidean_division_equations; lia.

(** Setting the low bits of a multiple of a power of two adds them. *)
Lemma lor_high (h k y : N) :
  (y < 2 ^ k)%N -> N.lor (h * 2 ^ k) y = (h * 2 ^ k + y)%N.
Proof.
  intros Hy. rewrite <- N.lxor_lor, <- N.add_nocarry_lxor; try reflexivity.
  all: apply N.bits_inj; intros n; rewrite N.land_spec, N.bits_0;
    destruct (N.lt_ge_cases n k) as [Hn|Hn];
    [ now rewrite N.mul_pow2_bits_low
    | rewrite <- (N.mod_small y (2 ^ k)) by assumption;
      rewrite N.mod_pow2_bits_high by assumption; apply andb_false_r ].
Qed.

Lemma decode_one (b0 : N) (r : bytes) :
  (b0 < 0x80)%N ->
  utf8_decode (b0 :: r) = option_map (cons b0) (utf8_decode r).
Proof.
  intros H. apply N.ltb_lt in H. simpl. now rewrite H.
Qed.

Lemma decode_two (b0 b1 : N) (r : bytes) :
  between 0xC2 0xDF b0 = true -> is_cont b1 = true ->
  utf8_decode (b0 :: b1 :: r)
  = option_map (cons (N.lor (N.shiftl (N.land b0 0x1F) 6) (cont_bits b1)))
      (utf8_decode r).
Proof.
  intros H0 H1.
  assert (Hlow : (b0 <? 0x80)%N = false).
  { unfold between in H0. apply andb_prop in H0. destruct H0 as [H0 _].
    apply N.leb_le in H0. apply N.ltb_ge. lia. }
  simpl. now rewrite Hlow, H0, H1.
Qed.

Lemma decode_three (b0 b1 b2 : N) (r : bytes) :
  between 0xE0 0xEF b0 = true ->
  between (if (b0 =? 0xE0)%N then 0xA0 else 0x80)
          (if (b0 =? 0xED)%N then 0x9F else 0xBF) b1 = true ->
  is_cont b2 = true ->
  utf8_decode (b0 :: b1 :: b2 :: r)
  = option_map
      (cons (N.lor (N.shiftl (N.land b0 0x0F) 12)
               (N.lor (N.shiftl (cont_bits b1) 6) (cont_bits b2))))
      (utf8_decode r).
Proof.
  intros H0 H1 H2.
  assert (Hlow : (b0 <? 0x80)%N = false /\ between 0xC2 0xDF b0 = false).
  { unfold between in *. apply andb_prop in H0. destruct H0 as [H0 _].
    apply N.leb_le in H0. split; [apply N.ltb_ge; lia|].
    apply andb_false_iff. right. apply N.leb_gt. lia. }
  destruct Hlow as [Hlow Hmid].
  simpl. now rewrite Hlow, Hmid, H0, H1, H2.
Qed.

Lemma decode_four (b0 b1 b2 b3 : N) (r : bytes) :
  between 0xF0 0xF4 b0 = true ->
  between (if (b0 =? 0xF0)%N then 0x90 else 0x80)
          (if (b0 =? 0xF4)%N then 0x8F else 0xBF) b1 = true ->
  is_cont b2 = true -> is_cont b3 = true ->
  utf8_decode (b0 :: b1 :: b2 :: b3 :: r)
  = option_map
      (cons (N.lor (N.shiftl (N.land b0 0x07) 18)
               (N.lor (N.shiftl (cont_bits b1) 12)
                  (N.lor (N.shiftl (cont_bits b2) 6) (cont_bits b3)))))
      (utf8_decode r).
Proof.
  intros H0 H1 H2 H3.
  assert (Hlow : (b0 <? 0x80)%N = false /\ between 0xC2 0xDF b0 = false
                 /\ between 0xE0 0xEF b0 = false).
  { unfold between in *. apply andb_prop in H0. destruct H0 as [H0 _].
    apply N.leb_le in H0. split; [apply N.ltb_ge; lia|].
    split; apply andb_false_iff; right; apply N.leb_gt; lia. }
  destruct Hlow as (Hlow & Hmid & Hhi).
  simpl. now rewrite Hlow, Hmid, Hhi, H0, H1, H2, H3.
Qed.

Lemma lor_128 (y : N) : (y < 64)%N -> N.lor 128 y = (128 + y)%N.
Proof. exact (@lor_high 2 6 y). Qed.

Lemma lor_192 (y : N) : (y < 32)%N -> N.lor 192 y = (192 + y)%N.
Proof. exact (@lor_high 6 5 y). Qed.

Lemma lor_224 (y : N) : (y < 16)%N -> N.lor 224 y = (224 + y)%N.
Proof. exact (@lor_high 14 4 y). Qed.

Lemma lor_240 (y : N) : (y < 8)%N -> N.lor 240 y = (240 + y)%N.
Proof. exact (@lor_high 30 3 y). Qed.

Ltac pow_consts :=
  change (2 ^ 3)%N with 8%N in *; change (2 ^ 4)%N with 16%N in *;
  change (2 ^ 5)%N with 32%N in *; change (2 ^ 6)%N with 64%N in *;
  change (2 ^ 12)%N with 4096%N in *; change (2 ^ 18)%N with 262144%N in *.

Ltac bits_to_arith :=
  unfold cont_bits;
  rewrite ?N.shiftr_div_pow2, ?N.shiftl_mul_pow2;
  change 0x3F%N with (N.ones 6); change 0x1F%N with (N.ones 5);
  change 0x0F%N with (N.ones 4); change 0x07%N with (N.ones 3);
  rewrite ?N.land_ones.

Ltac lor_to_add :=
  repeat first
    [ rewrite lor_128 by (pow_consts; nlia)
    | rewrite lor_192 by (pow_consts; nlia)
    | rewrite lor_224 by (pow_consts; nlia)
    | rewrite lor_240 by (pow_consts; nlia)
    | rewrite (@lor_high _ 6) by (pow_consts; nlia)
    | rewrite (@lor_high _ 12) by (pow_consts; nlia)
    | rewrite (@lor_high _ 18) by (pow_consts; nlia) ].

Lemma some_inj {A} (x y : A) : Some x = Some y -> x = y.
Proof. congruence. Qed.

Ltac in_range :=
  unfold is_cont, between;
  repeat match goal with
         | |- context [(?a =? ?b)%N] => destruct (N.eqb_spec a b)
         end;
  apply andb_true_intro; split; apply N.leb_le; pow_consts; nlia.

Lemma decode_encode_char (c : codepoint) (bs r : bytes) :
  utf8_encode_char c = Some bs ->
  utf8_decode (bs ++ r) = option_map (cons c) (utf8_decode r).
Proof.
  unfold utf8_encode_char.
  destruct (c <? 0x80)%N eqn:H1.
  { intros [= <-]. apply N.ltb_lt in H1. now apply decode_one. }
  apply N.ltb_ge in H1.
  destruct (c <? 0x800)%N eqn:H2.
  { apply N.ltb_lt in H2. intros H. apply some_inj in H. subst bs. cbn [app].
    bits_to_arith. lor_to_add.
    rewrite decode_two; [|in_range..].
    do 2 f_equal. bits_to_arith. lor_to_add. pow_consts. nlia. }
  apply N.ltb_ge in H2.
  destruct (c <? 0x10000)%N eqn:H3.
  { apply N.ltb_lt in H3.
    destruct (between 0xD800 0xDFFF c) eqn:Hs; [discriminate|].
    unfold between in Hs. apply andb_false_iff in Hs.
    rewrite !N.leb_gt in Hs.
    intros H. apply some_inj in H. subst bs. cbn [app].
    bits_to_arith. lor_to_add.
    rewrite decode_three; [|in_range..].
    do 2 f_equal. bits_to_arith. lor_to_add. pow_consts. nlia. }
  apply N.ltb_ge in H3.
  destruct (c <? 0x110000)%N eqn:H4; [|discriminate].
  apply N.ltb_lt in H4.
  intros H. apply some_inj in H. subst bs. cbn [app].
  bits_to_arith. lor_to_add.
  rewrite decode_four; [|in_range..].
  do 2 f_equal. bits_to_arith. lor_to_add. pow_consts. nlia.
Qed.

(** Decoding undoes encoding. *)
Lemma utf8_decode_encode (s : str) (b : bytes) :
  utf8_encode s = Some b -> utf8_decode b = Some s.
Proof.
  revert b. induction s as [|c s IH]; intros b; simpl.
  - now intros [= <-].
  - destruct (utf8_encode_char c) as [bc|] eqn:Hc; [|discriminate].
    destruct (utf8_encode s) as [bs|] eqn:Hs; [|discriminate].
    intros H. apply some_inj in H. subst b.
    rewrite (@decode_encode_char c bc bs Hc), (IH bs eq_refl). reflexivity.
Qed.

(** X1: every text made of Unicode scalar values encodes to UTF-8, and
    decoding the bytes gives the text back. *)
Theorem utf8_round_trip (s : str) :
  forallb is_scalar s = true ->
  exists b, utf8_encode s = Some b /\ utf8_decode b = Some s.
Proof.
  intros Hs. destruct (utf8_encode_scalar s Hs) as (b & Hb).
  exists b. split; [exact Hb | now apply utf8_decode_encode].
Qed.

Lemma utf8_round_trip_witness :
  exists b, utf8_encode [0x68; 0xE9; 0x20AC; 0x1F600]%N = Some b
            /\ utf8_decode b = Some [0x68; 0xE9; 0x20AC; 0x1F600]%N.
Proof.
  exact (@utf8_round_trip [0x68; 0xE9; 0x20AC; 0x1F600]%N eq_refl).
Defined.

(** ** More of publish mode *)

Lemma strip_all_space (s : str) : all_space s -> strip s = [].
Proof.
  intros H. unfold strip. now rewrite (lstrip_all_space H).
Qed.

(** The pass for a line that is neither blank nor the exit keyword and
    whose text encodes: the send is issued, and its reply decides. *)
Lemma accepted_line_body
    (py : platform) (message_count : nat) (it : Producer.iteration)
    (line : str) (payload : bytes) :
  Producer.user_input it = Returns line ->
  strip line <> [] ->
  lower py (strip line) <> lit "exit" ->
  utf8_encode (strip line ++ lit " - " ++ strftime (Producer.local_time it))
  = Some payload ->
  Producer.iteration_body py message_count it
  = match Producer.send_reply it with
    | Raises e =>
        Producer.inner_except
          [Input Producer.prompt (Returns line);
           Send payload (Producer.send_reply it)] message_count e
    | Returns msg_id =>
        ([Input Producer.prompt (Returns line);
          Send payload (Producer.send_reply it);
          Producer.println (Producer.sent_line msg_id);
          Producer.println []],
         S message_count, Done Continue)
    end.
Proof.
  intros Hin Hne Hexit Henc. unfold Producer.iteration_body. rewrite Hin.
  apply str_eqb_neq in Hexit. rewrite Hexit.
  assert (Hfull : is_empty (strip line) = false)
    by (destruct (strip line); [congruence | reflexivity]).
  rewrite Hfull, Henc. reflexivity.
Qed.

(** A pass always ends: it goes on, breaks or raises. *)
Lemma iteration_body_ends (py : platform) (message_count : nat) (it : Producer.iteration) :
  snd (Producer.iteration_body py message_count it) <> Pending.
Proof.
  unfold Producer.iteration_body.
  destruct (Producer.user_input it); [|producer_except; discriminate].
  destruct (str_eqb _ _); [discriminate|].
  destruct (is_empty _); [discriminate|].
  destruct (utf8_encode _); [|producer_except; discriminate].
  destruct (Producer.send_reply it); [|producer_except]; discriminate.
Qed.

(** Passes that all went back to the head of the loop can be split off. *)
Lemma producer_loop_app (py : platform) (before : list Producer.iteration) :
  forall n t n',
    Producer.while_true py n before = (t, n', Pending) ->
    forall rest,
      Producer.while_true py n (before ++ rest)
      = (let '(t2, n2, c2) := Producer.while_true py n' rest in (t ++ t2, n2, c2)).
Proof.
  induction before as [|it before IH]; intros n t n' H rest.
  - simpl in H. injection H as <- <-. simpl.
    now destruct (Producer.while_true py n rest) as [[t2 n2] c2].
  - cbn [Producer.while_true app] in *.
    pose proof (iteration_body_ends py n it) as Hends.
    destruct (Producer.iteration_body py n it) as [[t1 n1] [[|]|e|]];
      try discriminate.
    + destruct (Producer.while_true py n1 before) as [[t' n''] c'] eqn:Hb.
      injection H as <- <- ->.
      rewrite (IH n1 t' n'' Hb rest).
      destruct (Producer.while_true py n'' rest) as [[t2 n2] c2].
      now rewrite app_assoc.
    + now contradiction Hends.
Qed.

(** X2: a line that is empty or made of white space only is discarded:
    the pass prints the reminder, transmits nothing, leaves the
    sent-count as it was, and the loop goes on with the next line. *)
Theorem blank_line_is_skipped
    (py : platform) (message_count : nat) (it : Producer.iteration)
    (line : str) (rest : list Producer.iteration) :
  Producer.user_input it = Returns line ->
  all_space line ->
  Producer.iteration_body py message_count it
  = ([Input Producer.prompt (Returns line);
      Producer.println (lit "Empty message, please enter some text.")],
     message_count, Done Continue)
  /\ Producer.while_true py message_count (it :: rest)
     = (let '(t, n, c) := Producer.while_true py message_count rest in
        ([Input Producer.prompt (Returns line);
          Producer.println (lit "Empty message, please enter some text.")] ++ t,
         n, c)).
Proof.
  intros Hin Hblank.
  assert (Hbody : Producer.iteration_body py message_count it
                  = ([Input Producer.prompt (Returns line);
                      Producer.println (lit "Empty message, please enter some text.")],
                     message_count, Done Continue)).
  { unfold Producer.iteration_body.
    rewrite Hin, (strip_all_space Hblank). reflexivity. }
  split; [exact Hbody|].
  cbn [Producer.while_true]. now rewrite Hbody.
Qed.

Lemma blank_line_is_skipped_witness :
  Producer.while_true posix 0 [typed "   " (Returns []); typed "exit" (Returns [])]
  = ([Input Producer.prompt (Returns (lit "   "));
      Producer.println (lit "Empty message, please enter some text.");
      Input Producer.prompt (Returns (lit "exit"));
      Producer.println (lit "Exiting producer...")],
     0, Done tt).
Proof.
  exact (proj2 (@blank_line_is_skipped posix 0 (typed "   " (Returns [])) (lit "   ")
                  [typed "exit" (Returns [])] eq_refl ltac:(repeat constructor))).
Defined.

(** The session once the loop has returned with its counter. *)
Lemma producer_session_done
    (py : platform) (its : list Producer.iteration) (t : trace) (n : nat) :
  Producer.guarded_loop py its = (t, n, Done tt) ->
  Producer.send_messages_interactive py its
  = (producer_greeting ++ t ++ producer_farewell n, Done tt).
Proof.
  intros H. unfold Producer.send_messages_interactive. rewrite H. reflexivity.
Qed.

(** X3: when the operator's input ends after any number of lines, the
    session returns normally: the end-of-input line is printed, then the
    total, which is the count reached by the earlier lines and the number
    of their sends that returned; replies scripted after the end of input
    are not consumed. *)
Theorem end_of_input_ends_session
    (py : platform) (before : list Producer.iteration) (it : Producer.iteration)
    (rest : list Producer.iteration) (e : exn) (t : trace) (n : nat) :
  Producer.while_true py 0 before = (t, n, Pending) ->
  Producer.user_input it = Raises e ->
  is_EOFError e = true ->
  Producer.send_messages_interactive py (before ++ it :: rest)
  = (producer_greeting ++ t
     ++ [Input Producer.prompt (Raises e);
         Producer.println (nl :: lit "Received EOF, exiting...")]
     ++ producer_farewell n,
     Done tt)
  /\ n = successful_sends t.
Proof.
  intros Hbefore Hin Heof. split.
  - rewrite (@producer_session_done py (before ++ it :: rest)
               (t ++ [Input Producer.prompt (Raises e);
                      Producer.println (nl :: lit "Received EOF, exiting...")]) n).
    + now rewrite <- !app_assoc.
    + unfold Producer.guarded_loop.
      rewrite (@producer_loop_app py before 0 t n Hbefore (it :: rest)).
      cbn [Producer.while_true]. unfold Producer.iteration_body, Producer.inner_except.
      rewrite Hin, Heof. reflexivity.
  - pose proof (while_true_count py before 0) as Hc.
    rewrite Hbefore in Hc. exact Hc.
Qed.

Lemma end_of_input_ends_session_witness :
  snd (Producer.send_messages_interactive posix
         [typed "one" (Returns (lit "(0,1,-1,0)"));
          {| Producer.user_input := Raises {| exn_cls := EOFError; exn_text := [] |};
             Producer.local_time := new_year_10am;
             Producer.send_reply := Returns [] |};
          typed "never read" (Returns [])])
  = Done tt.
Proof.
  exact (f_equal snd
           (proj1 (@end_of_input_ends_session posix
                     [typed "one" (Returns (lit "(0,1,-1,0)"))]
                     {| Producer.user_input := Raises {| exn_cls := EOFError; exn_text := [] |};
                        Producer.local_time := new_year_10am;
                        Producer.send_reply := Returns [] |}
                     [typed "never read" (Returns [])]
                     {| exn_cls := EOFError; exn_text := [] |} _ 1
                     eq_refl eq_refl eq_refl))).
Defined.

(** X4: an interrupt that leaves a pass (it arrived while the process was
    reading the line or sending) is caught around the loop: the session
    prints the interrupt line and the total reached so far and returns
    normally, so the interrupt does not reach [main]. *)
Theorem interrupt_ends_session
    (py : platform) (before : list Producer.iteration) (it : Producer.iteration)
    (rest : list Producer.iteration) (e : exn) (t ti : trace) (n ni : nat) :
  Producer.while_true py 0 before = (t, n, Pending) ->
  Producer.iteration_body py n it = (ti, ni, Raise e) ->
  is_KeyboardInterrupt e = true ->
  Producer.send_messages_interactive py (before ++ it :: rest)
  = (producer_greeting ++ t ++ ti
     ++ [Producer.println (nl :: lit "Received Ctrl+C, exiting...")]
     ++ producer_farewell n,
     Done tt).
Proof.
  intros Hbefore Hbody Hki.
  assert (Hn : ni = n).
  { pose proof (iteration_body_count py n it) as Hc. rewrite Hbody in Hc.
    simpl in Hc. revert Hbody. unfold Producer.iteration_body.
    destruct (Producer.user_input it); [|producer_except; congruence].
    destruct (str_eqb _ _); [congruence|].
    destruct (is_empty _); [congruence|].
    destruct (utf8_encode _); [|producer_except; congruence].
    destruct (Producer.send_reply it); [|producer_except]; congruence. }
  subst ni.
  rewrite (@producer_session_done py (before ++ it :: rest)
             ((t ++ ti) ++ [Producer.println (nl :: lit "Received Ctrl+C, exiting...")]) n).
  - now rewrite <- !app_assoc.
  - unfold Producer.guarded_loop.
    rewrite (@producer_loop_app py before 0 t n Hbefore (it :: rest)).
    cbn [Producer.while_true]. now rewrite Hbody, Hki.
Qed.

Lemma interrupt_ends_session_witness :
  snd (Producer.send_messages_interactive posix
         [typed "one" (Returns (lit "(0,1,-1,0)")); typed "two" (Raises interrupt)])
  = Done tt.
Proof.
  exact (f_equal snd
           (@interrupt_ends_session posix
              [typed "one" (Returns (lit "(0,1,-1,0)"))]
              (typed "two" (Raises interrupt)) [] interrupt _ _ 1 1
              eq_refl eq_refl eq_refl)).
Defined.

(** What leaves a pass is neither caught by [except EOFError] nor by
    [except Exception]. *)
Lemma iteration_body_raise
    (py : platform) (message_count : nat) (it : Producer.iteration) (e : exn) :
  snd (Producer.iteration_body py message_count it) = Raise e ->
  is_Exception e = false.
Proof.
  unfold Producer.iteration_body.
  destruct (Producer.user_input it);
    [|producer_except; simpl in *; congruence].
  destruct (str_eqb _ _); [discriminate|].
  destruct (is_empty _); [discriminate|].
  destruct (utf8_encode _); [|producer_except; simpl in *; congruence].
  destruct (Producer.send_reply it); [|producer_except]; simpl in *; congruence.
Qed.

Lemma producer_loop_raise (py : platform) (its : list Producer.iteration) :
  forall n e,
    snd (Producer.while_true py n its) = Raise e -> is_Exception e = false.
Proof.
  induction its as [|it rest IH]; intros n e; [discriminate|].
  cbn [Producer.while_true].
  pose proof (@iteration_body_raise py n it) as Hbody.
  destruct (Producer.iteration_body py n it) as [[t1 n1] [[|]|e1|]];
    simpl in *; try discriminate.
  - specialize (IH n1 e).
    destruct (Producer.while_true py n1 rest) as [[t' n'] c']. exact IH.
  - intros [= <-]. now apply Hbody.
Qed.

(** X5: no failure of the operator's terminal, of the encoder or of the
    broker client escapes the publish session, and no interrupt does:
    whatever the replies, if [send_messages_interactive] raises, the
    exception is neither of class [Exception] nor a keyboard interrupt. *)
Theorem publish_session_contains_faults
    (py : platform) (its : list Producer.iteration) (e : exn) :
  snd (Producer.send_messages_interactive py its) = Raise e ->
  is_Exception e = false /\ is_KeyboardInterrupt e = false.
Proof.
  unfold Producer.send_messages_interactive, Producer.guarded_loop.
  pose proof (@producer_loop_raise py its 0) as Hraise.
  destruct (Producer.while_true py 0 its) as [[t n] [[]|e1|]];
    simpl in *; try discriminate.
  destruct (is_KeyboardInterrupt e1) eqn:Hki; simpl; [discriminate|].
  intros [= <-]. split; [now apply Hraise | exact Hki].
Qed.

Lemma publish_session_contains_faults_witness :
  let quit := {| exn_cls := SystemExit 3; exn_text := [] |} in
  is_Exception quit = false /\ is_KeyboardInterrupt quit = false.
Proof.
  exact (@publish_session_contains_faults posix
           [{| Producer.user_input := Raises {| exn_cls := SystemExit 3; exn_text := [] |};
               Producer.local_time := new_year_10am;
               Producer.send_reply := Returns [] |}]
           {| exn_cls := SystemExit 3; exn_text := [] |} eq_refl).
Defined.

(** Only texts made of scalar values encode. *)
Lemma utf8_encode_some_scalar (s : str) (b : bytes) :
  utf8_encode s = Some b -> forallb is_scalar s = true.
Proof.
  revert b. induction s as [|c s IH]; intros b; simpl; [reflexivity|].
  destruct (utf8_encode_char c) as [bc|] eqn:Hc; [|discriminate].
  destruct (utf8_encode s) as [bs|] eqn:Hs; [|discriminate]. intros _.
  rewrite (IH bs eq_refl), andb_true_r.
  unfold utf8_encode_char in Hc. unfold is_scalar, between in *.
  destruct (N.ltb_spec c 0x80); [apply andb_true_intro; split;
    [apply N.ltb_lt; lia | apply negb_true_iff, andb_false_iff; left; apply N.leb_gt; lia]|].
  destruct (N.ltb_spec c 0x800); [apply andb_true_intro; split;
    [apply N.ltb_lt; lia | apply negb_true_iff, andb_false_iff; left; apply N.leb_gt; lia]|].
  destruct (N.ltb_spec c 0x10000).
  - destruct ((0xD800 <=? c)%N && (c <=? 0xDFFF)%N); [discriminate|].
    apply andb_true_intro. split; [apply N.ltb_lt; lia | reflexivity].
  - destruct (N.ltb_spec c 0x110000); [|discriminate].
    apply andb_true_intro. split; [reflexivity|].
    apply negb_true_iff, andb_false_iff. right. apply N.leb_gt. lia.
Qed.

(** X6: a line whose text cannot be encoded (it holds a lone surrogate or
    a value beyond the code space) is reported as a send error and is not
    transmitted; the count is unchanged and the loop goes on. *)
Theorem unencodable_line_is_reported
    (py : platform) (message_count : nat) (it : Producer.iteration) (line : str) :
  Producer.user_input it = Returns line ->
  strip line <> [] ->
  lower py (strip line) <> lit "exit" ->
  forallb is_scalar (strip line) = false ->
  let text := strip line ++ lit " - " ++ strftime (Producer.local_time it) in
  Producer.iteration_body py message_count it
  = ([Input Producer.prompt (Returns line);
      Producer.println (lit "Error sending message: " ++ encode_error_text py text)],
     message_count, Done Continue).
Proof.
  intros Hin Hne Hexit Hbad text.
  assert (Henc : utf8_encode text = None).
  { destruct (utf8_encode text) as [b|] eqn:Hb; [|reflexivity].
    apply utf8_encode_some_scalar in Hb. unfold text in Hb.
    rewrite forallb_app in Hb. apply andb_prop in Hb. destruct Hb as [Hb _].
    congruence. }
  unfold Producer.iteration_body. rewrite Hin.
  apply str_eqb_neq in Hexit. rewrite Hexit.
  assert (Hfull : is_empty (strip line) = false)
    by (destruct (strip line); [congruence | reflexivity]).
  rewrite Hfull. fold text. rewrite Henc. reflexivity.
Qed.

Lemma unencodable_line_is_reported_witness :
  sends (fst (fst (Producer.iteration_body posix 0
                     {| Producer.user_input := Returns [0x68; 0xD800]%N;
                        Producer.local_time := new_year_10am;
                        Producer.send_reply := Returns [] |})))
  = [].
Proof.
  exact (f_equal (fun r => sends (fst (fst r)))
           (@unencodable_line_is_reported posix 0
              {| Producer.user_input := Returns [0x68; 0xD800]%N;
                 Producer.local_time := new_year_10am;
                 Producer.send_reply := Returns [] |}
              [0x68; 0xD800]%N eq_refl ltac:(discriminate) ltac:(discriminate) eq_refl)).
Defined.

Lemma sends_app (a b : trace) : sends (a ++ b) = sends a ++ sends b.
Proof. unfold sends. apply flat_map_app. Qed.

Lemma inputs_app (a b : trace) : inputs (a ++ b) = inputs a + inputs b.
Proof. unfold inputs. now rewrite filter_app, length_app. Qed.

Lemma successful_le_sends (t : trace) : successful_sends t <= List.length (sends t).
Proof.
  unfold successful_sends, sends.
  induction t as [|a t IH]; simpl; [lia|].
  destruct a as [| | | | | |payload [msg_id|e]| | | |]; simpl; lia.
Qed.

(** A pass reads one line and issues at most one send. *)
Lemma iteration_body_calls (py : platform) (message_count : nat) (it : Producer.iteration) :
  inputs (fst (fst (Producer.iteration_body py message_count it))) = 1
  /\ List.length (sends (fst (fst (Producer.iteration_body py message_count it)))) <= 1.
Proof.
  unfold Producer.iteration_body, inputs, sends.
  destruct (Producer.user_input it); [|producer_except; simpl; lia].
  destruct (str_eqb _ _); [simpl; lia|].
  destruct (is_empty _); [simpl; lia|].
  destruct (utf8_encode _); [|producer_except; simpl; lia].
  destruct (Producer.send_reply it); [|producer_except]; simpl; lia.
Qed.

(** X7: the publish loop never retries and never duplicates: it reads at
    most one line per scripted pass, issues at most one send per line
    read, and counts at most the sends it issued. *)
Theorem one_send_per_line
    (py : platform) (its : list Producer.iteration) (message_count : nat) :
  let r := Producer.while_true py message_count its in
  snd (fst r) <= message_count + List.length (sends (fst (fst r)))
  /\ List.length (sends (fst (fst r))) <= inputs (fst (fst r))
  /\ inputs (fst (fst r)) <= List.length its.
Proof.
  intros r.
  assert (H : List.length (sends (fst (fst r))) <= inputs (fst (fst r))
              /\ inputs (fst (fst r)) <= List.length its).
  { unfold r. clear r. revert message_count.
    induction its as [|it rest IH]; intros n; [simpl; unfold inputs; simpl; lia|].
    cbn [Producer.while_true].
    destruct (iteration_body_calls py n it) as [Hi Hs].
    destruct (Producer.iteration_body py n it) as [[t1 n1] [[|]|e|]];
      simpl in *; try lia.
    specialize (IH n1).
    destruct (Producer.while_true py n1 rest) as [[t' n'] c']. simpl in *.
    rewrite sends_app, inputs_app, length_app. lia. }
  split; [|exact H].
  pose proof (while_true_count py its message_count) as Hc. fold r in Hc.
  pose proof (successful_le_sends (fst (fst r))). lia.
Qed.

(** What a pass transmits is the timestamped trimmed line it read. *)
Lemma iteration_body_payload
    (py : platform) (message_count : nat) (it : Producer.iteration) (payload : bytes) :
  In payload (sends (fst (fst (Producer.iteration_body py message_count it)))) ->
  exists line,
    Producer.user_input it = Returns line
    /\ strip line <> []
    /\ lower py (strip line) <> lit "exit"
    /\ utf8_decode payload
       = Some (strip line ++ lit " - " ++ strftime (Producer.local_time it)).
Proof.
  unfold Producer.iteration_body, sends.
  destruct (Producer.user_input it) as [line|e0];
    [|producer_except; simpl; tauto].
  destruct (str_eqb _ _) eqn:Hexit; [simpl; tauto|].
  destruct (is_empty _) eqn:Hfull; [simpl; tauto|].
  destruct (utf8_encode _) as [p|] eqn:Henc; [|producer_except; simpl; tauto].
  intros Hin. exists line.
  assert (Hp : payload = p).
  { revert Hin. destruct (Producer.send_reply it); [|producer_except];
      simpl; intros [H|[]]; now symmetry. }
  subst p. repeat split.
  - intros Hnil. rewrite Hnil in Hfull. discriminate.
  - now apply str_eqb_neq.
  - now apply utf8_decode_encode.
Qed.

(** The same of every payload of the loop. *)
Lemma loop_payload
    (py : platform) (its : list Producer.iteration) (message_count : nat)
    (payload : bytes) :
  In payload (sends (fst (fst (Producer.while_true py message_count its)))) ->
  exists it line,
    In it its
    /\ Producer.user_input it = Returns line
    /\ strip line <> []
    /\ lower py (strip line) <> lit "exit"
    /\ utf8_decode payload
       = Some (strip line ++ lit " - " ++ strftime (Producer.local_time it)).
Proof.
  revert message_count. induction its as [|it rest IH]; intros n; [simpl; tauto|].
  cbn [Producer.while_true].
  pose proof (@iteration_body_payload py n it payload) as Hbody.
  destruct (Producer.iteration_body py n it) as [[t1 n1] [[|]|e|]]; simpl in *.
  - specialize (IH n1).
    destruct (Producer.while_true py n1 rest) as [[t' n'] c']. simpl in *.
    rewrite sends_app. intros Hin. apply in_app_or in Hin. destruct Hin as [Hin|Hin].
    + destruct (Hbody Hin) as (line & H). exists it, line. tauto.
    + destruct (IH Hin) as (it' & line & Hit' & H). exists it', line. tauto.
  - intros Hin. destruct (Hbody Hin) as (line & H). exists it, line. tauto.
  - intros Hin. destruct (Hbody Hin) as (line & H). exists it, line. tauto.
  - intros Hin. destruct (Hbody Hin) as (line & H). exists it, line. tauto.
Qed.

(** X8: every payload the publish loop ever transmits decodes to the
    trimmed content of a line the operator typed, followed by " - " and
    the local time of that pass; the content has no white space at either
    end, is never empty and is never the exit keyword. *)
Theorem every_payload_is_a_timestamped_line
    (py : platform) (its : list Producer.iteration) (message_count : nat)
    (payload : bytes) :
  In payload (sends (fst (fst (Producer.while_true py message_count its)))) ->
  exists it line,
    In it its
    /\ Producer.user_input it = Returns line
    /\ tight (strip line)
    /\ strip line <> []
    /\ lower py (strip line) <> lit "exit"
    /\ utf8_decode payload
       = Some (strip line ++ lit " - " ++ strftime (Producer.local_time it)).
Proof.
  intros Hin.
  destruct (@loop_payload py its message_count payload Hin)
    as (it & line & Hit & Hline & Hne & Hexit & Hdec).
  exists it, line. repeat split; try assumption; apply strip_tight.
Qed.

Lemma every_payload_is_a_timestamped_line_witness :
  exists it line,
    In it [typed "  hello " (Returns (lit "(0,1,-1,0)")); typed "exit" (Returns [])]
    /\ Producer.user_input it = Returns line
    /\ tight (strip line)
    /\ strip line <> []
    /\ lower posix (strip line) <> lit "exit"
    /\ utf8_decode (lit "hello - 2024-01-01 10:00:00")
       = Some (strip line ++ lit " - " ++ strftime (Producer.local_time it)).
Proof.
  exact (@every_payload_is_a_timestamped_line posix
           [typed "  hello " (Returns (lit "(0,1,-1,0)")); typed "exit" (Returns [])]
           0 (lit "hello - 2024-01-01 10:00:00") (or_introl eq_refl)).
Defined.

(** ** From the producer to the consumer *)

(** A pass that received a message whose payload decodes and whose
    payload line the output accepts shows the decoded text and
    acknowledges the message. *)
Lemma decoded_poll_shows_text
    (py : platform) (message_count : nat) (p : Consumer.poll) (m : message) (text : str) :
  Consumer.receive_reply p = Returns m ->
  utf8_decode (msg_data m) = Some text ->
  Consumer.report_reply p = Returns tt ->
  In (Consumer.println (lit "  Data: " ++ text))
     (fst (fst (Consumer.poll_body py message_count p)))
  /\ acks (fst (fst (Consumer.poll_body py message_count p))) = [m].
Proof.
  intros Hr Hd Hshow. unfold Consumer.poll_body. rewrite Hr, Hd, Hshow.
  destruct (Consumer.acknowledge_reply p);
    [|consumer_except]; (split; [simpl; tauto | reflexivity]).
Qed.

(** X9: whatever the publish loop transmitted, once the broker delivers
    it to the consumer and the consumer's output accepts the payload
    line, the consumer shows exactly the text the producer built (the
    trimmed line, " - ", the producer's local time) and acknowledges the
    message once in that pass. *)
Theorem sent_message_is_shown_and_acknowledged
    (py : platform) (its : list Producer.iteration) (sent_so_far : nat)
    (p : Consumer.poll) (m : message) (received_so_far : nat) :
  In (msg_data m) (sends (fst (fst (Producer.while_true py sent_so_far its)))) ->
  Consumer.receive_reply p = Returns m ->
  Consumer.report_reply p = Returns tt ->
  exists it line,
    In it its
    /\ Producer.user_input it = Returns line
    /\ In (Consumer.println
             (lit "  Data: " ++ strip line ++ lit " - "
              ++ strftime (Producer.local_time it)))
          (fst (fst (Consumer.poll_body py received_so_far p)))
    /\ acks (fst (fst (Consumer.poll_body py received_so_far p))) = [m].
Proof.
  intros Hsent Hr Hshow.
  destruct (@loop_payload py its sent_so_far (msg_data m) Hsent)
    as (it & line & Hit & Hline & _ & _ & Hdec).
  exists it, line. split; [exact Hit|]. split; [exact Hline|].
  exact (@decoded_poll_shows_text py received_so_far p m _ Hr Hdec Hshow).
Qed.

Lemma sent_message_is_shown_and_acknowledged_witness :
  let m := {| msg_data := lit "hello - 2024-01-01 10:00:00"; msg_id := lit "(0,1,-1,0)" |} in
  exists it line,
    In it [typed "  hello " (Returns (lit "(0,1,-1,0)"))]
    /\ Producer.user_input it = Returns line
    /\ In (Consumer.println
             (lit "  Data: " ++ strip line ++ lit " - "
              ++ strftime (Producer.local_time it)))
          (fst (fst (Consumer.poll_body posix 0 (polled (Returns m) 1700000011))))
    /\ acks (fst (fst (Consumer.poll_body posix 0 (polled (Returns m) 1700000011)))) = [m].
Proof.
  exact (@sent_message_is_shown_and_acknowledged posix
           [typed "  hello " (Returns (lit "(0,1,-1,0)"))] 0
           (polled (Returns {| msg_data := lit "hello - 2024-01-01 10:00:00";
                               msg_id := lit "(0,1,-1,0)" |}) 1700000011)
           {| msg_data := lit "hello - 2024-01-01 10:00:00"; msg_id := lit "(0,1,-1,0)" |}
           0 (or_introl eq_refl) eq_refl eq_refl).
Defined.

(** ** More of subscribe mode *)

Lemma received_app (a b : trace) : received (a ++ b) = received a ++ received b.
Proof. unfold received. apply flat_map_app. Qed.

Lemma acks_app (a b : trace) : acks (a ++ b) = acks a ++ acks b.
Proof. unfold acks. apply flat_map_app. Qed.

(** In a pass the counter grows by the messages received, and what is
    acknowledged is what was received, or nothing. *)
Lemma poll_body_received (py : platform) (message_count : nat) (p : Consumer.poll) :
  let r := Consumer.poll_body py message_count p in
  snd (fst r) = message_count + List.length (received (fst (fst r)))
  /\ (acks (fst (fst r)) = [] \/ acks (fst (fst r)) = received (fst (fst r))).
Proof.
  unfold Consumer.poll_body, received, acks.
  destruct (Consumer.receive_reply p) as [m|e];
    [|consumer_except; simpl; split; (lia || tauto)].
  destruct (utf8_decode (msg_data m));
    [|consumer_except; simpl; split; (lia || tauto)].
  destruct (Consumer.report_reply p);
    [|consumer_except; simpl; split; (lia || tauto)].
  destruct (Consumer.acknowledge_reply p);
    [|consumer_except]; simpl; split; (lia || tauto).
Qed.

Lemma poll_body_ends (py : platform) (message_count : nat) (p : Consumer.poll) :
  snd (Consumer.poll_body py message_count p) <> Pending
  /\ snd (Consumer.poll_body py message_count p) <> Done Break.
Proof.
  unfold Consumer.poll_body.
  destruct (Consumer.receive_reply p) as [m|e];
    [|consumer_except; split; discriminate].
  destruct (utf8_decode (msg_data m));
    [|consumer_except; split; discriminate].
  destruct (Consumer.report_reply p);
    [|consumer_except; split; discriminate].
  destruct (Consumer.acknowledge_reply p);
    [|consumer_except]; split; discriminate.
Qed.

Lemma consumer_loop_received (py : platform) (ps : list Consumer.poll) :
  forall n,
    let r := Consumer.while_true py n ps in
    snd (fst r) = n + List.length (received (fst (fst r)))
    /\ incl (acks (fst (fst r))) (received (fst (fst r)))
    /\ List.length (acks (fst (fst r))) <= List.length (received (fst (fst r))).
Proof.
  induction ps as [|p rest IH]; intros n; [simpl; repeat split; auto using incl_nil_l|].
  cbn [Consumer.while_true].
  destruct (poll_body_received py n p) as [Hc Ha].
  assert (Hbody : incl (acks (fst (fst (Consumer.poll_body py n p))))
                       (received (fst (fst (Consumer.poll_body py n p))))
                  /\ List.length (acks (fst (fst (Consumer.poll_body py n p))))
                     <= List.length (received (fst (fst (Consumer.poll_body py n p))))).
  { destruct Ha as [-> | ->]; split; auto using incl_nil_l, incl_refl; simpl; lia. }
  clear Ha. destruct Hbody as [Hincl Hlen].
  destruct (Consumer.poll_body py n p) as [[t1 n1] [[|]|e|]]; simpl in *;
    try (repeat split; assumption).
  specialize (IH n1). destruct (Consumer.while_true py n1 rest) as [[t' n'] c'].
  simpl in *. destruct IH as (IHc & IHi & IHl).
  rewrite received_app, acks_app, !length_app. repeat split; try lia.
  apply incl_app; [now apply incl_appl | now apply incl_appr].
Qed.

(** The session once the loop has returned with its counter. *)
Lemma consumer_session_done
    (py : platform) (ps : list Consumer.poll) (t : trace) (n : nat) :
  Consumer.guarded_loop py ps = (t, n, Done tt) ->
  Consumer.consume_messages_continuous py ps
  = (consumer_greeting ++ t ++ consumer_farewell n, Done tt).
Proof.
  intros H. unfold Consumer.consume_messages_continuous. rewrite H. reflexivity.
Qed.

(** X10: the received-count is the number of receive calls that returned
    a message, decodable or not, acknowledged or not; it is the total the
    session prints when it ends. *)
Theorem received_count_is_messages_received
    (py : platform) (ps : list Consumer.poll) :
  let loop := Consumer.guarded_loop py ps in
  let session := Consumer.consume_messages_continuous py ps in
  snd (fst loop) = List.length (received (fst (fst loop)))
  /\ (snd loop = Done tt ->
      session = (consumer_greeting ++ fst (fst loop)
                 ++ consumer_farewell (List.length (received (fst session))),
                 Done tt)).
Proof.
  intros loop session.
  assert (Hcount : snd (fst loop) = List.length (received (fst (fst loop)))).
  { unfold loop, Consumer.guarded_loop.
    pose proof (consumer_loop_received py ps 0) as (Hc & _).
    destruct (Consumer.while_true py 0 ps) as [[t n] [[]|e|]]; simpl in *; try exact Hc.
    destruct (is_KeyboardInterrupt e); simpl; [|exact Hc].
    rewrite received_app, length_app. simpl. lia. }
  split; [exact Hcount|].
  intros Hdone. unfold session.
  destruct loop as [[t n] c] eqn:Hloop. simpl in *. subst c.
  rewrite (consumer_session_done py ps Hloop). simpl.
  rewrite !received_app, !length_app. simpl. rewrite <- Hcount.
  now rewrite Nat.add_0_r.
Qed.

Lemma received_count_is_messages_received_witness :
  snd (fst (Consumer.guarded_loop posix
              [polled (Returns {| msg_data := lit "a"; msg_id := lit "(0,1,-1,0)" |}) 1700000011;
               polled (Returns {| msg_data := [0xFF%N]; msg_id := lit "(0,2,-1,0)" |}) 1700000012;
               polled (Raises interrupt) 1700000013]))
  = 2.
Proof.
  exact (proj1 (@received_count_is_messages_received posix
                  [polled (Returns {| msg_data := lit "a"; msg_id := lit "(0,1,-1,0)" |}) 1700000011;
                   polled (Returns {| msg_data := [0xFF%N]; msg_id := lit "(0,2,-1,0)" |}) 1700000012;
                   polled (Raises interrupt) 1700000013])).
Defined.

(** X11: the consumer never acknowledges a message it has not received,
    and never acknowledges more messages than it received. *)
Theorem acknowledges_only_what_it_received
    (py : platform) (ps : list Consumer.poll) (message_count : nat) :
  let t := fst (fst (Consumer.while_true py message_count ps)) in
  incl (acks t) (received t)
  /\ List.length (acks t) <= List.length (received t).
Proof.
  exact (proj2 (consumer_loop_received py ps message_count)).
Qed.

(** The subscribe loop has no [break]: it is still polling or it raised. *)
Lemma consumer_loop_never_done (py : platform) (ps : list Consumer.poll) :
  forall n, snd (Consumer.while_true py n ps) <> Done tt.
Proof.
  induction ps as [|p rest IH]; intros n; [discriminate|].
  cbn [Consumer.while_true].
  destruct (poll_body_ends py n p) as [_ Hbreak].
  destruct (Consumer.poll_body py n p) as [[t1 n1] [[|]|e|]]; simpl in *;
    try discriminate; [|congruence].
  specialize (IH n1). now destruct (Consumer.while_true py n1 rest) as [[t' n'] c'].
Qed.

(** X12: the subscribe session returns only after a keyboard interrupt:
    it returns exactly when the loop raised one, and then the interrupt
    line was printed; otherwise it is still polling or propagates another
    exception. *)
Theorem subscribe_session_returns_only_on_interrupt
    (py : platform) (ps : list Consumer.poll) :
  (snd (Consumer.consume_messages_continuous py ps) = Done tt
   <-> exists e, snd (Consumer.while_true py 0 ps) = Raise e
                 /\ is_KeyboardInterrupt e = true)
  /\ (snd (Consumer.consume_messages_continuous py ps) = Done tt ->
      In (Consumer.println (nl :: lit "Consumer interrupted by user"))
         (fst (Consumer.consume_messages_continuous py ps))).
Proof.
  unfold Consumer.consume_messages_continuous, Consumer.guarded_loop.
  pose proof (consumer_loop_never_done py ps 0) as Hnever.
  destruct (Consumer.while_true py 0 ps) as [[t n] [[]|e|]]; simpl in *.
  - congruence.
  - destruct (is_KeyboardInterrupt e) eqn:Hki; simpl.
    + split; [split; eauto|]. intros _.
      right. right. right. apply in_or_app. left. apply in_or_app. right.
      now left.
    + split; [split; [discriminate|]|discriminate].
      intros (e' & [= <-] & Hki'). congruence.
  - split; [split; [discriminate|]|discriminate].
    intros (e' & He' & _). discriminate.
Qed.

Lemma subscribe_session_returns_only_on_interrupt_witness :
  In (Consumer.println (nl :: lit "Consumer interrupted by user"))
     (fst (Consumer.consume_messages_continuous posix
             [polled (Raises broker_timeout) 1700000011;
              polled (Raises interrupt) 1700000013])).
Proof.
  exact (proj2 (@subscribe_session_returns_only_on_interrupt posix
                  [polled (Raises broker_timeout) 1700000011;
                   polled (Raises interrupt) 1700000013]) eq_refl).
Defined.

(** What a poll that failed with another error than a time-out does: the
    receive call, the error line, the one-second pause. *)
Lemma error_poll (py : platform) (message_count : nat) (p : Consumer.poll) (e : exn) :
  Consumer.receive_reply p = Raises e ->
  is_receive_error (Raises e) = true ->
  Consumer.poll_body py message_count p
  = ([Receive 5000 (Raises e);
      Consumer.println (lit "Error receiving message: " ++ exn_text e);
      Sleep 1 (Consumer.sleep_reply p)],
     message_count,
     match Consumer.sleep_reply p with
     | Returns _ => Done Continue
     | Raises e' => Raise e'
     end).
Proof.
  intros Hr He. simpl in He. apply andb_prop in He. destruct He as [Hex Hto].
  apply negb_true_iff in Hto.
  unfold Consumer.poll_body, Consumer.inner_except. rewrite Hr, Hex, Hto.
  destruct (Consumer.sleep_reply p); reflexivity.
Qed.

(** X13: receive errors other than time-outs never stop the subscribe
    loop: over any run of such errors whose pauses are not interrupted,
    each error is followed by one pause of one second, the received-count
    is unchanged, nothing is acknowledged, no marker is printed and the
    loop is still polling. *)
Theorem errors_pause_and_keep_polling
    (py : platform) (ps : list Consumer.poll) (message_count : nat) :
  Forall (fun p => is_receive_error (Consumer.receive_reply p) = true
                   /\ Consumer.sleep_reply p = Returns tt) ps ->
  let r := Consumer.while_true py message_count ps in
  snd (fst r) = message_count
  /\ snd r = Pending
  /\ sleeps (fst (fst r)) = repeat 1%Z (List.length ps)
  /\ receives (fst (fst r)) = List.length ps
  /\ acks (fst (fst r)) = []
  /\ markers (fst (fst r)) = 0.
Proof.
  intros H. revert message_count.
  induction H as [|p ps [Herr Hsleep] _ IH]; intros n; [repeat split|].
  cbn [Consumer.while_true].
  destruct (Consumer.receive_reply p) as [m|e] eqn:Hr; [discriminate|].
  rewrite (@error_poll py n p e Hr Herr), Hsleep.
  destruct (IH n) as (Hn & Hc & Hs & Hrc & Ha & Hm).
  destruct (Consumer.while_true py n ps) as [[t' n'] c']. simpl in *.
  unfold sleeps, receives, acks, markers in *. simpl.
  rewrite Hs, Hrc, Ha. repeat split; try assumption.
Qed.

Lemma errors_pause_and_keep_polling_witness :
  let r := Consumer.while_true posix 2
             (repeat {| Consumer.receive_reply := Raises broker_failure;
                        Consumer.report_reply := Returns tt;
                        Consumer.local_time := new_year_10am;
                        Consumer.acknowledge_reply := Returns tt;
                        Consumer.epoch_seconds := 1700000011;
                        Consumer.sleep_reply := Returns tt |} 3) in
  snd (fst r) = 2 /\ snd r = Pending.
Proof.
  pose proof (@errors_pause_and_keep_polling posix
                (repeat {| Consumer.receive_reply := Raises broker_failure;
                           Consumer.report_reply := Returns tt;
                           Consumer.local_time := new_year_10am;
                           Consumer.acknowledge_reply := Returns tt;
                           Consumer.epoch_seconds := 1700000011;
                           Consumer.sleep_reply := Returns tt |} 3) 2
                ltac:(repeat constructor)) as H.
  exact (conj (proj1 H) (proj1 (proj2 H))).
Defined.

(** Polls that all went back to the head of the loop can be split off. *)
Lemma consumer_loop_app (py : platform) (before : list Consumer.poll) :
  forall n t n',
    Consumer.while_true py n before = (t, n', Pending) ->
    forall rest,
      Consumer.while_true py n (before ++ rest)
      = (let '(t2, n2, c2) := Consumer.while_true py n' rest in (t ++ t2, n2, c2)).
Proof.
  induction before as [|p before IH]; intros n t n' H rest.
  - simpl in H. injection H as <- <-. simpl.
    now destruct (Consumer.while_true py n rest) as [[t2 n2] c2].
  - cbn [Consumer.while_true app] in *.
    destruct (poll_body_ends py n p) as [Hends _].
    destruct (Consumer.poll_body py n p) as [[t1 n1] [[|]|e|]];
      try discriminate.
    + destruct (Consumer.while_true py n1 before) as [[t' n''] c'] eqn:Hb.
      injection H as <- <- ->.
      rewrite (IH n1 t' n'' Hb rest).
      destruct (Consumer.while_true py n'' rest) as [[t2 n2] c2].
      now rewrite app_assoc.
    + now contradiction Hends.
Qed.

(** X15: an interrupt that leaves a poll (it arrived during the receive,
    the acknowledgement or the pause) ends the subscribe session
    normally: the interrupt line and the total are printed, and the total
    includes a message received in that very poll even when its
    acknowledgement was the call interrupted. *)
Theorem interrupt_ends_subscribe_session
    (py : platform) (before : list Consumer.poll) (p : Consumer.poll)
    (rest : list Consumer.poll) (e : exn) (t tp : trace) (n np : nat) :
  Consumer.while_true py 0 before = (t, n, Pending) ->
  Consumer.poll_body py n p = (tp, np, Raise e) ->
  is_KeyboardInterrupt e = true ->
  Consumer.consume_messages_continuous py (before ++ p :: rest)
  = (consumer_greeting ++ t ++ tp
     ++ [Consumer.println (nl :: lit "Consumer interrupted by user")]
     ++ consumer_farewell np,
     Done tt)
  /\ np = n + List.length (received tp).
Proof.
  intros Hbefore Hbody Hki. split.
  - rewrite (@consumer_session_done py (before ++ p :: rest)
               ((t ++ tp) ++ [Consumer.println (nl :: lit "Consumer interrupted by user")])
               np).
    + now rewrite <- !app_assoc.
    + unfold Consumer.guarded_loop.
      rewrite (@consumer_loop_app py before 0 t n Hbefore (p :: rest)).
      cbn [Consumer.while_true]. now rewrite Hbody, Hki.
  - pose proof (poll_body_received py n p) as [Hc _].
    rewrite Hbody in Hc. exact Hc.
Qed.

Lemma interrupt_ends_subscribe_session_witness :
  let m := {| msg_data := lit "a"; msg_id := lit "(0,1,-1,0)" |} in
  snd (Consumer.consume_messages_continuous posix
         [polled (Raises broker_timeout) 1700000011;
          {| Consumer.receive_reply := Returns m;
             Consumer.report_reply := Returns tt;
             Consumer.local_time := new_year_10am;
             Consumer.acknowledge_reply := Raises interrupt;
             Consumer.epoch_seconds := 1700000012;
             Consumer.sleep_reply := Returns tt |}])
  = Done tt.
Proof.
  exact (f_equal snd
           (proj1 (@interrupt_ends_subscribe_session posix
                     [polled (Raises broker_timeout) 1700000011]
                     {| Consumer.receive_reply :=
                          Returns {| msg_data := lit "a"; msg_id := lit "(0,1,-1,0)" |};
                        Consumer.report_reply := Returns tt;
                        Consumer.local_time := new_year_10am;
                        Consumer.acknowledge_reply := Raises interrupt;
                        Consumer.epoch_seconds := 1700000012;
                        Consumer.sleep_reply := Returns tt |}
                     [] interrupt _ _ 0 1 eq_refl eq_refl eq_refl))).
Defined.

(** ** More of the credential loader *)

(** X16: an I/O fault other than a missing file (permission denied, a
    directory, undecodable content) makes the loader print the fault and
    exit with status 1, without the provisioning guidance; an exception
    that is not of class [Exception] (an interrupt) propagates untouched
    and nothing is printed. *)
Theorem loader_other_fault_exits
    (py : platform) (open_reply : str -> reply str) (token_file : str) (e : exn) :
  open_reply (replace_char 47%N (os_sep py) token_file) = Raises e ->
  is_FileNotFoundError e = false ->
  read_token_from_file py open_reply token_file
  = (OpenRead (replace_char 47%N (os_sep py) token_file) (Raises e)
     :: (if is_Exception e
         then [Print (lit "Error reading token file: " ++ exn_text e ++ [nl])]
         else []),
     Raise (if is_Exception e
            then {| exn_cls := SystemExit 1; exn_text := [] |}
            else e))
  /\ (is_Exception e = true ->
      exit_status (snd (read_token_from_file py open_reply token_file)) = Some 1%Z).
Proof.
  intros H Hfnf.
  assert (Hrun : read_token_from_file py open_reply token_file
                 = (OpenRead (replace_char 47%N (os_sep py) token_file) (Raises e)
                    :: (if is_Exception e
                        then [Print (lit "Error reading token file: " ++ exn_text e ++ [nl])]
                        else []),
                    Raise (if is_Exception e
                           then {| exn_cls := SystemExit 1; exn_text := [] |}
                           else e))).
  { unfold read_token_from_file, call. rewrite H. simpl. rewrite Hfnf.
    destruct (is_Exception e); reflexivity. }
  split; [exact Hrun|]. rewrite Hrun. intros ->. reflexivity.
Qed.

Lemma loader_other_fault_exits_witness :
  exit_status (snd (read_token_from_file posix
                      (fun _ => Raises {| exn_cls := OtherException;
                                          exn_text := lit "[Errno 13] Permission denied" |})
                      Producer.token_file))
  = Some 1%Z.
Proof.
  exact (proj2 (@loader_other_fault_exits posix
                  (fun _ => Raises {| exn_cls := OtherException;
                                      exn_text := lit "[Errno 13] Permission denied" |})
                  Producer.token_file
                  {| exn_cls := OtherException;
                     exn_text := lit "[Errno 13] Permission denied" |}
                  eq_refl eq_refl) eq_refl).
Defined.

Lemma replace_char_same (c : codepoint) (s : str) : replace_char c [c] s = s.
Proof.
  unfold replace_char. induction s as [|x s IH]; simpl; [reflexivity|].
  rewrite IH. destruct (N.eqb_spec x c); now subst.
Qed.

Lemma replace_char_single (old new : codepoint) (s : str) :
  replace_char old [new] s = map (fun x => if (x =? old)%N then new else x) s.
Proof.
  unfold replace_char. induction s as [|x s IH]; simpl; [reflexivity|].
  rewrite IH. now destruct (x =? old)%N.
Qed.

(** X17: whatever happens, the loader opens exactly one file, once: the
    given path with every "/" replaced by the host's separator.  On a
    host whose separator is "/" that is the path as given; with any other
    one-character separator the path keeps its length and no "/" is left
    in it. *)
Theorem loader_opens_the_normalised_path_once
    (py : platform) (open_reply : str -> reply str) (token_file : str) :
  opened (fst (read_token_from_file py open_reply token_file))
  = [replace_char 47%N (os_sep py) token_file]
  /\ (os_sep py = [47%N] -> replace_char 47%N (os_sep py) token_file = token_file)
  /\ (forall c, os_sep py = [c] -> c <> 47%N ->
        List.length (replace_char 47%N (os_sep py) token_file) = List.length token_file
        /\ ~ In 47%N (replace_char 47%N (os_sep py) token_file)).
Proof.
  split; [|split].
  - unfold read_token_from_file, call, try_except, bind, print, sys_exit, raise, ret.
    split_replies; reflexivity.
  - intros ->. apply replace_char_same.
  - intros c -> Hc. rewrite replace_char_single. split; [apply length_map|].
    rewrite in_map_iff. intros (x & Hx & _).
    destruct (N.eqb_spec x 47); congruence.
Qed.

Lemma loader_opens_the_normalised_path_once_witness :
  let windows := {| os_sep := [92%N];
                    lower_nonascii := lower_nonascii posix;
                    encode_error_text := encode_error_text posix;
                    decode_error_text := decode_error_text posix |} in
  opened (fst (read_token_from_file windows (fun _ => Raises file_missing)
                 Producer.token_file))
  = [lit "tokens" ++ [92%N] ++ lit "client1-token.txt"].
Proof.
  exact (proj1 (@loader_opens_the_normalised_path_once
                  {| os_sep := [92%N];
                     lower_nonascii := lower_nonascii posix;
                     encode_error_text := encode_error_text posix;
                     decode_error_text := decode_error_text posix |}
                  (fun _ => Raises file_missing) Producer.token_file)).
Defined.

(** ** Connection set-up and the whole process *)

(** X18: when the client or the channel cannot be created (the broker
    client raises an exception of class [Exception]), either process
    prints the error and exits with status 1: the interaction loop is
    never entered and nothing is closed, not even a client that had been
    created. *)
Theorem connection_failure_exits
    (py : platform) (wp : Producer.world) (wc : Consumer.world)
    (content : str) (e : exn) :
  is_Exception e = true ->
  (Producer.open_reply wp (replace_char 47%N (os_sep py) Producer.token_file)
   = Returns content ->
   connection_failure (Producer.client_reply wp) (Producer.producer_reply wp) = Some e ->
   exit_status (snd (Producer.main py wp)) = Some 1%Z
   /\ session_calls (fst (Producer.main py wp)) = 0
   /\ In (Producer.println (lit "Error connecting to Pulsar: " ++ exn_text e))
         (fst (Producer.main py wp)))
  /\ (Consumer.open_reply wc (replace_char 47%N (os_sep py) Consumer.token_file)
      = Returns content ->
      connection_failure (Consumer.client_reply wc) (Consumer.consumer_reply wc) = Some e ->
      exit_status (snd (Consumer.main py wc)) = Some 1%Z
      /\ session_calls (fst (Consumer.main py wc)) = 0
      /\ In (Consumer.println (lit "Error connecting to Pulsar: " ++ exn_text e))
            (fst (Consumer.main py wc))).
Proof.
  intros Hex. split; intros Hopen Hfail.
  - unfold Producer.main, Producer.create_producer, read_token_from_file, call.
    rewrite Hopen. unfold connection_failure in Hfail.
    destruct (Producer.client_reply wp) as [[]|e1];
      [destruct (Producer.producer_reply wp) as [[]|e2]; [discriminate|]|];
      injection Hfail as ->; simpl; rewrite Hex; simpl;
      (split; [reflexivity|]; split; [reflexivity|]; tauto).
  - unfold Consumer.main, Consumer.create_consumer, read_token_from_file, call.
    rewrite Hopen. unfold connection_failure in Hfail.
    destruct (Consumer.client_reply wc) as [[]|e1];
      [destruct (Consumer.consumer_reply wc) as [[]|e2]; [discriminate|]|];
      injection Hfail as ->; simpl; rewrite Hex; simpl;
      (split; [reflexivity|]; split; [reflexivity|]; tauto).
Qed.

Lemma connection_failure_exits_witness :
  let w := {| Producer.open_reply := fun _ => Returns (lit "eyJhbGciOi" ++ [nl]);
              Producer.client_reply := Returns tt;
              Producer.producer_reply := Raises broker_failure;
              Producer.iterations := [typed "never read" (Returns [])];
              Producer.close_producer_reply := Returns tt;
              Producer.close_client_reply := Returns tt |} in
  exit_status (snd (Producer.main posix w)) = Some 1%Z
  /\ session_calls (fst (Producer.main posix w)) = 0.
Proof.
  pose proof (proj1 (@connection_failure_exits posix
                       {| Producer.open_reply := fun _ => Returns (lit "eyJhbGciOi" ++ [nl]);
                          Producer.client_reply := Returns tt;
                          Producer.producer_reply := Raises broker_failure;
                          Producer.iterations := [typed "never read" (Returns [])];
                          Producer.close_producer_reply := Returns tt;
                          Producer.close_client_reply := Returns tt |}
                       (consumer_world [] (Returns tt))
                       (lit "eyJhbGciOi" ++ [nl]) broker_failure eq_refl)
                eq_refl eq_refl) as H.
  exact (conj (proj1 H) (proj1 (proj2 H))).
Defined.

(** X19: whenever the token file can be read, the client is constructed
    exactly once, for the fixed broker address and with the trimmed
    content of the file as its token, whether the connection then
    succeeds or not. *)
Theorem client_gets_the_trimmed_token
    (py : platform) (wp : Producer.world) (wc : Consumer.world) (content : str) :
  (Producer.open_reply wp (replace_char 47%N (os_sep py) Producer.token_file)
   = Returns content ->
   tokens (fst (Producer.create_producer py wp)) = [strip content]
   /\ In (NewClient service_url (strip content) (Producer.client_reply wp))
         (fst (Producer.create_producer py wp)))
  /\ (Consumer.open_reply wc (replace_char 47%N (os_sep py) Consumer.token_file)
      = Returns content ->
      tokens (fst (Consumer.create_consumer py wc)) = [strip content]
      /\ In (NewClient service_url (strip content) (Consumer.client_reply wc))
            (fst (Consumer.create_consumer py wc))).
Proof.
  split; intros Hopen.
  - unfold Producer.create_producer, read_token_from_file, call.
    rewrite Hopen. simpl.
    destruct (Producer.client_reply wp) as [[]|e1]; simpl.
    + destruct (Producer.producer_reply wp) as [[]|e2]; simpl;
        [|destruct (is_Exception e2); simpl]; (split; [reflexivity | tauto]).
    + destruct (is_Exception e1); simpl; (split; [reflexivity | tauto]).
  - unfold Consumer.create_consumer, read_token_from_file, call.
    rewrite Hopen. simpl.
    destruct (Consumer.client_reply wc) as [[]|e1]; simpl.
    + destruct (Consumer.consumer_reply wc) as [[]|e2]; simpl;
        [|destruct (is_Exception e2); simpl]; (split; [reflexivity | tauto]).
    + destruct (is_Exception e1); simpl; (split; [reflexivity | tauto]).
Qed.

Lemma client_gets_the_trimmed_token_witness :
  tokens (fst (Producer.create_producer posix
                 (producer_world [] (Returns tt))))
  = [lit "eyJhbGciOi"].
Proof.
  exact (proj1 (proj1 (@client_gets_the_trimmed_token posix
                         (producer_world [] (Returns tt))
                         (consumer_world [] (Returns tt))
                         (lit "eyJhbGciOi" ++ [nl])) eq_refl)).
Defined.

Lemma producer_main_started (py : platform) (w : Producer.world) (tc : trace) :
  Producer.create_producer py w = (tc, Done tt) ->
  Producer.main py w
  = (producer_banner ++ tc
     ++ fst (Producer.main_try
               (Producer.send_messages_interactive py (Producer.iterations w)) w),
     snd (Producer.main_try
            (Producer.send_messages_interactive py (Producer.iterations w)) w)).
Proof.
  intros H. unfold Producer.main. rewrite H.
  now destruct (Producer.main_try _ w) as [tm cm].
Qed.

Lemma consumer_main_started (py : platform) (w : Consumer.world) (tc : trace) :
  Consumer.create_consumer py w = (tc, Done tt) ->
  Consumer.main py w
  = (consumer_banner ++ tc
     ++ fst (Consumer.main_try
               (Consumer.consume_messages_continuous py (Consumer.polls w)) w),
     snd (Consumer.main_try
            (Consumer.consume_messages_continuous py (Consumer.polls w)) w)).
Proof.
  intros H. unfold Consumer.main. rewrite H.
  now destruct (Consumer.main_try _ w) as [tm cm].
Qed.

(** X20: a clean, operator-initiated shutdown ends either process with
    status 0: once the connection is set up, the session has returned and
    both releases return, [main] returns, and the last three things it
    did are the release of the channel handle, the release of the client
    session and the line saying the close succeeded. *)
Theorem clean_shutdown_exits_with_zero
    (py : platform) (wp : Producer.world) (wc : Consumer.world) :
  (snd (Producer.create_producer py wp) = Done tt ->
   snd (Producer.send_messages_interactive py (Producer.iterations wp)) = Done tt ->
   Producer.close_producer_reply wp = Returns tt ->
   Producer.close_client_reply wp = Returns tt ->
   exit_status (snd (Producer.main py wp)) = Some 0%Z
   /\ exists before,
        fst (Producer.main py wp)
        = before ++ [Close ProducerHandle (Returns tt);
                     Close ClientHandle (Returns tt);
                     Producer.println (lit "Producer closed successfully!")])
  /\ (snd (Consumer.create_consumer py wc) = Done tt ->
      snd (Consumer.consume_messages_continuous py (Consumer.polls wc)) = Done tt ->
      Consumer.close_consumer_reply wc = Returns tt ->
      Consumer.close_client_reply wc = Returns tt ->
      exit_status (snd (Consumer.main py wc)) = Some 0%Z
      /\ exists before,
           fst (Consumer.main py wc)
           = before ++ [Close ConsumerHandle (Returns tt);
                        Close ClientHandle (Returns tt);
                        Consumer.println (lit "Consumer closed successfully!")]).
Proof.
  split; intros Hc Hs Hclose1 Hclose2.
  - destruct (Producer.create_producer py wp) as [tc c] eqn:Hcreate.
    simpl in Hc. subst c. rewrite (producer_main_started py wp Hcreate).
    destruct (Producer.send_messages_interactive py (Producer.iterations wp))
      as [ts cs]. simpl in Hs. subst cs.
    unfold Producer.main_try, Producer.shutdown, try_finally, try_except, call, bind, print.
    rewrite Hclose1, Hclose2. simpl. split; [reflexivity|].
    exists (producer_banner ++ tc ++ ts
            ++ [Producer.println (nl :: lit "Closing producer and client...")]).
    now rewrite <- !app_assoc.
  - destruct (Consumer.create_consumer py wc) as [tc c] eqn:Hcreate.
    simpl in Hc. subst c. rewrite (consumer_main_started py wc Hcreate).
    destruct (Consumer.consume_messages_continuous py (Consumer.polls wc))
      as [ts cs]. simpl in Hs. subst cs.
    unfold Consumer.main_try, Consumer.shutdown, try_finally, try_except, call, bind, print.
    rewrite Hclose1, Hclose2. simpl. split; [reflexivity|].
    exists (consumer_banner ++ tc ++ ts
            ++ [Consumer.println (nl :: lit "Closing consumer and client...")]).
    now rewrite <- !app_assoc.
Qed.

Lemma clean_shutdown_exits_with_zero_witness :
  exit_status (snd (Producer.main posix
                      (producer_world [typed "hello" (Returns (lit "(0,1,-1,0)"));
                                       typed "exit" (Returns [])] (Returns tt))))
  = Some 0%Z
  /\ exit_status (snd (Consumer.main posix
                         (consumer_world [polled (Raises interrupt) 1700000013]
                                         (Returns tt))))
     = Some 0%Z.
Proof.
  pose proof (@clean_shutdown_exits_with_zero posix
                (producer_world [typed "hello" (Returns (lit "(0,1,-1,0)"));
                                 typed "exit" (Returns [])] (Returns tt))
                (consumer_world [polled (Raises interrupt) 1700000013] (Returns tt)))
    as [Hp Hc].
  exact (conj (proj1 (Hp eq_refl eq_refl eq_refl eq_refl))
              (proj1 (Hc eq_refl eq_refl eq_refl eq_refl))).
Defined.
